(** * MapSegment: the key-value segment of the soya redux store

    A shallow embedding of [soya/src/data/redux/segment/map/MapSegment.js]
    and the properties of its reducer, its event creators and its piece
    comparator.

    JavaScript objects live in a store ([heap]) and are named by
    locations; [===] on two objects compares locations.  The objects of
    the store are plain objects, as [{}] and [JSON.parse] make them: a
    finite map of own, enumerable, writable properties, with
    [Object.prototype] for prototype.  What such an object inherits is
    part of every read: a key it has no own property for is looked up in
    [Object.prototype] ([constructor], [hasOwnProperty], [toString], ...,
    and the accessor [__proto__]), taken as ECMAScript defines it, Annex B
    included, and unmodified.

    Three things are outside this store and have the outcome [Outside],
    which says nothing about the code: an assignment that would give an
    object another prototype ([o.__proto__ = v] for an object or [null]
    [v]), the call of a built-in other than [hasOwnProperty] under the
    name [hasOwnProperty], and the properties of a primitive or of a
    built-in function other than [loaded], which none of them has. *)

From stdpp Require Import gmap strings list fin_maps.
From Stdlib Require Import ZArith.

Open Scope Z_scope.
Open Scope string_scope.

(** ** Values and the object store *)

Definition loc := positive.

(** The built-in objects a read can return: [Object.prototype] and the
    functions it holds, each named by the key it is found under
    ([ObjectMethod "constructor"] is [Object]). *)
Inductive native :=
  | ObjectPrototype
  | ObjectMethod (name : string).

#[global] Instance native_eq_dec : EqDecision native.
Proof. solve_decision. Defined.

(** JavaScript values.  Numbers are the integer-valued ones (the only
    numbers the segment makes are millisecond timestamps). *)
Inductive value :=
  | VUndef
  | VNull
  | VBool (b : bool)
  | VNum (n : Z)
  | VStr (s : string)
  | VRef (l : loc)
  | VNative (n : native).

#[global] Instance value_eq_dec : EqDecision value.
Proof. solve_decision. Defined.

(** An object: its own enumerable properties. *)
Abbreviation obj := (gmap string value).

(** The store: allocated objects by location. *)
Abbreviation heap := (gmap loc obj).

(** ToBoolean: what [if (v)], [!v] and [v ? a : b] test. *)
Definition truthy (v : value) : bool :=
  match v with
  | VUndef | VNull => false
  | VBool b => b
  | VNum n => negb (n =? 0)%Z
  | VStr s => negb (String.eqb s "")
  | VRef _ | VNative _ => true
  end.

(** [a === b]. *)
Definition strict_eq (a b : value) : bool := bool_decide (a = b).

(** [v == null]: true of [null] and [undefined] only. *)
Definition loose_eq_null (v : value) : bool :=
  match v with
  | VUndef | VNull => true
  | _ => false
  end.

(** ** Outcomes: a value, a thrown error, or outside the store model *)

Inductive exn :=
  | TypeError (msg : string)
  | Error (msg : string).

(** [E] is what a throw carries: the error, and for code that works on
    the store the error with the store as the throw leaves it. *)
Inductive result (E A : Type) :=
  | Ok (a : A)
  | Throw (e : E)
  | Outside.
Arguments Ok {E A} a.
Arguments Throw {E A} e.
Arguments Outside {E A}.

#[global] Instance result_ret {E} : MRet (result E) := λ A a, Ok a.

#[global] Instance result_bind {E} : MBind (result E) := λ A B k r,
  match r with
  | Ok a => k a
  | Throw e => Throw e
  | Outside => Outside
  end.

(** A read or a call made in store [h]: when it throws, [h] is the store
    the throw leaves. *)
Definition in_store {A} (h : heap) (r : result exn A) : result (exn * heap) A :=
  match r with
  | Ok a => Ok a
  | Throw e => Throw (e, h)
  | Outside => Outside
  end.

(** ** Store operations *)

(** The functions [Object.prototype] holds, by key. *)
Definition object_prototype_methods : list string :=
  ["constructor"; "hasOwnProperty"; "isPrototypeOf"; "propertyIsEnumerable";
   "toLocaleString"; "toString"; "valueOf";
   "__defineGetter__"; "__defineSetter__"; "__lookupGetter__"; "__lookupSetter__"].

Definition is_object_method (k : string) : bool :=
  existsb (String.eqb k) object_prototype_methods.

(** What a plain object reads for a key it has no own property for: the
    [__proto__] getter returns its prototype, [Object.prototype]; a method
    key gives the method; any other key gives [undefined]. *)
Definition inherited (k : string) : value :=
  if String.eqb k "__proto__" then VNative ObjectPrototype
  else if is_object_method k then VNative (ObjectMethod k)
  else VUndef.

(** The object at a location; a location outside the store holds no
    property. *)
Definition obj_at (h : heap) (l : loc) : obj := default ∅ (h !! l).

(** [o[k]] for the object at [l]: the own property, and what the object
    inherits for the key without one. *)
Definition obj_get (h : heap) (l : loc) (k : string) : value :=
  match obj_at h l !! k with
  | Some v => v
  | None => inherited k
  end.

(** [{...}]: a new object at a location not yet in use. *)
Definition alloc (h : heap) (o : obj) : loc * heap :=
  let l := fresh (dom h) in (l, <[l := o]> h).

(** [v[k]]: reading a property.  [undefined] and [null] have none and
    throw.  [Object.prototype] has its methods, and its own prototype,
    [null], under [__proto__].  A primitive and a built-in function have
    no [loaded]; their other properties are outside the model. *)
Definition get_prop (h : heap) (v : value) (k : string) : result exn value :=
  match v with
  | VUndef | VNull => Throw (TypeError "Cannot read property of undefined or null")
  | VRef l => Ok (obj_get h l k)
  | VNative ObjectPrototype =>
      if String.eqb k "__proto__" then Ok VNull
      else if is_object_method k then Ok (VNative (ObjectMethod k))
      else Ok VUndef
  | VBool _ | VNum _ | VStr _ | VNative (ObjectMethod _) =>
      if String.eqb k "loaded" then Ok VUndef else Outside
  end.

(** [o[k] = v] on the object at [l].  For every key but [__proto__], and
    for [__proto__] when the object has an own property of that name, the
    assignment sets the own property.  Otherwise it runs the [__proto__]
    setter of [Object.prototype]: a primitive [v] is ignored, so is
    [Object.prototype] itself, the prototype the object has already; an
    object or [null] would become the prototype, which is outside the
    model. *)
Definition set_prop (h : heap) (l : loc) (k : string) (v : value)
    : result exn heap :=
  if String.eqb k "__proto__" && negb (bool_decide (is_Some (obj_at h l !! k))) then
    match v with
    | VUndef | VBool _ | VNum _ | VStr _ | VNative ObjectPrototype => Ok h
    | VNull | VRef _ | VNative (ObjectMethod _) => Outside
    end
  else Ok (<[l := <[k := v]> (obj_at h l)]> h).

(** The keys a [for (k in v)] loop visits: the own properties of a plain
    object, [Object.prototype] adding none as its properties are not
    enumerable; nothing for [undefined], [null], a boolean, a number, the
    empty string and a built-in.  The characters of a string are outside
    the model.  The order of the visit is the order of the map's listing;
    the loop below does the same to a key wherever it comes. *)
Definition for_in_keys (h : heap) (v : value) : result exn (list string) :=
  match v with
  | VRef l => Ok (map_to_list (obj_at h l)).*1
  | VStr s => if String.eqb s "" then Ok [] else Outside
  | _ => Ok []
  end.

(** [Object.prototype.hasOwnProperty.call(v, k)]. *)
Definition own_property (h : heap) (v : value) (k : string) : result exn bool :=
  match v with
  | VRef l => Ok (bool_decide (is_Some (obj_at h l !! k)))
  | VNative ObjectPrototype => Ok (String.eqb k "__proto__" || is_object_method k)
  | _ => Outside
  end.

(** [state.hasOwnProperty(k)]: the method is read off the state, so an
    own entry of that name is what gets called.  A value that is not a
    function cannot be called; of the built-in functions only
    [hasOwnProperty] itself is modelled. *)
Definition hasOwnProperty (h : heap) (state : value) (k : string)
    : result exn bool :=
  f ← get_prop h state "hasOwnProperty";
  match f with
  | VNative (ObjectMethod m) =>
      if String.eqb m "hasOwnProperty" then own_property h state k else Outside
  | _ => Throw (TypeError "state.hasOwnProperty is not a function")
  end.

(** ** The segment *)

(** An event ([action]): [{type, queryId, payload}]; the clean event has
    a [type] only, its other two fields read [undefined]. *)
Record action := Action {
  a_type : string;
  a_queryId : option string;
  a_payload : value
}.

(** The property key [o[action.queryId]] uses: the string itself, and
    ["undefined"] for a missing query identity. *)
Definition prop_key (q : option string) : string := default "undefined" q.

(** The fields the constructor sets from the segment's id. *)
Record MapSegment := {
  _loadActionType : string;
  _initActionType : string;
  _cleanActionType : string
}.

(** The constructor; [generate] is [ActionNameUtil.generate]. *)
Definition new_MapSegment (generate : string → string → string) (id : string)
    : MapSegment :=
  {| _loadActionType := generate id "LOAD";
     _initActionType := generate id "INIT";
     _cleanActionType := generate id "CLEAN" |}.

(** [_isLoaded(piece)]. *)
Definition _isLoaded (h : heap) (piece : value) : result exn value :=
  get_prop h piece "loaded".

(** [_createSyncLoadActionObject(queryId, payload, errors)]; [now] is the
    clock reading [Date.now()]. *)
Definition _createSyncLoadActionObject (seg : MapSegment) (now : Z) (h : heap)
    (queryId : string) (payload errors : value) : action * heap :=
  let '(p, h') := alloc h
    (<["data" := payload]>
     (<["updated" := VNum now]>
      (<["errors" := errors]>
       (<["loaded" := VBool (if truthy errors then false else true)]> ∅)))) in
  (Action (_loadActionType seg) (Some queryId) (VRef p), h').

(** [_createSyncInitAction(queryId)]. *)
Definition _createSyncInitAction (seg : MapSegment) (now : Z) (h : heap)
    (queryId : string) : action * heap :=
  let '(p, h') := alloc h
    (<["data" := VNull]>
     (<["updated" := VNum now]>
      (<["errors" := VNull]>
       (<["loaded" := VBool false]> ∅)))) in
  (Action (_initActionType seg) (Some queryId) (VRef p), h').

(** [_createSyncCleanAction()]. *)
Definition _createSyncCleanAction (seg : MapSegment) : action :=
  Action (_cleanActionType seg) None VUndef.

(** [_getPieceObject(state, queryId)]. *)
Definition _getPieceObject (h : heap) (state : value) (queryId : string)
    : result exn value :=
  get_prop h state queryId.

(** [_isStateEqual(segmentStateA, segmentStateB)]. *)
Definition _isStateEqual (segmentStateA segmentStateB : value) : bool :=
  strict_eq segmentStateA segmentStateB.

(** [_comparePiece(prevSegmentState, segmentState, queryId)]: [null] is
    [None], the one-element array is [Some [piece]]. *)
Definition _comparePiece (h : heap) (prevSegmentState segmentState : value)
    (queryId : string) : result exn (option (list value)) :=
  if _isStateEqual prevSegmentState segmentState then mret None
  else
    a ← get_prop h prevSegmentState queryId;
    b ← get_prop h segmentState queryId;
    if strict_eq a b then mret None
    else
      piece ← _getPieceObject h segmentState queryId;
      mret (Some [piece]).

(** The body of the [for (queryId in state)] loop of [_createNewStateObj],
    run over the keys still to visit. *)
Fixpoint copy_loop (h : heap) (state : value) (newState : loc)
    (keys : list string) : result (exn * heap) heap :=
  match keys with
  | [] => mret h
  | queryId :: rest =>
      own ← in_store h (hasOwnProperty h state queryId);
      if negb own then
        copy_loop h state newState rest
      else
        v ← in_store h (get_prop h state queryId);
        h' ← in_store h (set_prop h newState queryId v);
        copy_loop h' state newState rest
  end.

(** [_createNewStateObj(state)]. *)
Definition _createNewStateObj (h : heap) (state : value)
    : result (exn * heap) (loc * heap) :=
  let '(newState, h1) := alloc h ∅ in
  keys ← in_store h1 (for_in_keys h1 state);
  h2 ← copy_loop h1 state newState keys;
  mret (newState, h2).

(** [_getReducer()]: the function it returns, applied to a state and an
    event in a store. *)
Definition _getReducer (seg : MapSegment) (h : heap) (state : value) (a : action)
    : result (exn * heap) (value * heap) :=
  let '(state, h) :=
    if negb (truthy state) then
      let '(l, h') := alloc h ∅ in (VRef l, h')
    else (state, h) in
  if String.eqb (a_type a) (_cleanActionType seg) then
    let '(l, h') := alloc h ∅ in mret (VRef l, h')
  else if String.eqb (a_type a) (_loadActionType seg) then
    '(newState, h1) ← _createNewStateObj h state;
    h2 ← in_store h1 (set_prop h1 newState (prop_key (a_queryId a)) (a_payload a));
    mret (VRef newState, h2)
  else if String.eqb (a_type a) (_initActionType seg) then
    entry ← in_store h (get_prop h state (prop_key (a_queryId a)));
    isUninitialized ←
      (if negb (truthy entry) then mret true
       else ld ← in_store h (get_prop h entry "loaded"); mret (negb (truthy ld)));
    if (isUninitialized : bool) then
      '(newState, h1) ← _createNewStateObj h state;
      h2 ← in_store h1 (set_prop h1 newState (prop_key (a_queryId a)) (a_payload a));
      mret (VRef newState, h2)
    else mret (state, h)
  else mret (state, h).

(** The object a state value names: its own properties, none for a value
    that is not an object. *)
Definition state_obj (h : heap) (v : value) : obj :=
  match v with
  | VRef l => obj_at h l
  | _ => ∅
  end.

(** One turn of the copy loop as it acts on the object being filled from
    the object [o]. *)
Definition copy_step (o acc : obj) (k : string) : obj :=
  if bool_decide (is_Some (o !! k)) then <[k := default VUndef (o !! k)]> acc
  else acc.

(** A value is a function when it is one of the built-in methods; the
    store holds no other. *)
Definition callable (v : value) : bool :=
  match v with
  | VNative (ObjectMethod _) => true
  | _ => false
  end.

(** The values the [__proto__] setter would make a prototype of. *)
Definition prototype_like (v : value) : bool :=
  match v with
  | VNull | VRef _ | VNative (ObjectMethod _) => true
  | _ => false
  end.

(** A state the copy loop runs through from end to end: a missing one,
    and a state object with no entry named [hasOwnProperty] or
    [__proto__]. *)
Definition copies_cleanly (h : heap) (state : value) : Prop :=
  match state with
  | VRef l =>
      obj_at h l !! "hasOwnProperty" = None ∧ obj_at h l !! "__proto__" = None
  | _ => truthy state = false
  end.

(** ** The abstract hooks and the load creator *)

(** Modelled from the spec: [Thunk.js] is not among the sources; the
    deferred fetch handler binds [(segmentId, queryId, query)]. *)
Record Thunk := {
  t_segmentId : string;
  t_queryId : string;
  t_query : value
}.

(** The two methods a concrete segment overrides.  The hook on a thunk
    returns the thunk as the override leaves it. *)
Class SegmentHooks := {
  _generateQueryId : value → result exn string;
  _generateThunkFunction : Thunk → result exn Thunk
}.

(** What [MapSegment] itself has for them; [this] is the instance as the
    string concatenation prints it. *)
Definition MapSegment_hooks (this : string) : SegmentHooks :=
  {| _generateQueryId := λ query,
       Throw (Error ("User must override this _generateQueryId method! Instance: "
                     ++ this ++ "."));
     _generateThunkFunction := λ thunk,
       Throw (Error ("User must override _generateThunkFunction method! Instance: "
                     ++ this ++ ".")) |}.

(** [_createLoadAction(query, queryId)]; [id] is [this.constructor.id()]. *)
Definition _createLoadAction `{SegmentHooks} (id : string) (query : value)
    (queryId : string) : result exn Thunk :=
  let thunk := {| t_segmentId := id; t_queryId := queryId; t_query := query |} in
  thunk ← _generateThunkFunction thunk;
  mret thunk.

(** [_actionCreator.load]. *)
Definition actionCreator_load `{SegmentHooks} (id : string) (query : value)
    : result exn Thunk :=
  queryId ← _generateQueryId query;
  _createLoadAction id query queryId.

(** [_actionCreator.clean]. *)
Definition actionCreator_clean (seg : MapSegment) : action :=
  _createSyncCleanAction seg.

(** ** A sample segment and sample stores *)

Module Sample.

(** Modelled from the spec: [ActionNameUtil.js] is not among the sources;
    an event name is derived from the segment identity and the event
    kind, one name for each kind. *)
Definition generate (segmentName actionName : string) : string :=
  segmentName ++ "." ++ actionName.

Definition seg : MapSegment := new_MapSegment generate "UserSegment".

(** One empty state object at location 1. *)
Definition h_empty : heap := {[ 1%positive := ∅ ]}.

(** A state at location 1 holding, under ["Q1"], the loaded piece at
    location 2. *)
Definition piece_loaded : obj :=
  <["data" := VStr "alice"]>
  (<["updated" := VNum 1000]>
   (<["errors" := VNull]>
    (<["loaded" := VBool true]> ∅))).

Definition h_loaded : heap :=
  <[1%positive := {["Q1" := VRef 2%positive]}]> {[ 2%positive := piece_loaded ]}.

(** An empty state object at location 1 and, at location 2, the array
    [["timeout"]] a failed fetch reports. *)
Definition h_errors : heap :=
  <[1%positive := ∅]>
  {[ 2%positive := <["0" := VStr "timeout"]> {["length" := VNum 1]} ]}.

(** A load that failed, then an init, for the same query: the payload
    of the load event and the entry the state has for the query in the
    end. *)
Definition failed_load_then_init : result (exn * heap) (value * value) :=
  let '(a_load, h1) :=
    _createSyncLoadActionObject seg 1000 h_errors "Q1" VNull (VRef 2%positive) in
  '(s1, h2) ← _getReducer seg h1 (VRef 1%positive) a_load;
  let '(a_init, h3) := _createSyncInitAction seg 1001 h2 "Q1" in
  '(s2, h4) ← _getReducer seg h3 s1 a_init;
  entry ← in_store h4 (get_prop h4 s2 "Q1");
  mret (a_payload a_load, entry).

(** The state of [h_loaded] at location 1 and, at location 3, the
    empty state a clean event leaves. *)
Definition h_cleaned : heap := <[3%positive := ∅]> h_loaded.

(** A state at location 1 holding, under ["Q1"], the piece at location
    2 that an init event left: not loaded. *)
Definition piece_unloaded : obj :=
  <["data" := VNull]>
  (<["updated" := VNum 1000]>
   (<["errors" := VNull]>
    (<["loaded" := VBool false]> ∅))).

Definition h_unloaded : heap :=
  <[1%positive := {["Q1" := VRef 2%positive]}]> {[ 2%positive := piece_unloaded ]}.

(** A state at location 1 that holds the loaded piece at location 2
    under ["hasOwnProperty"], as a load for a query of that identity
    leaves it. *)
Definition h_shadowed : heap :=
  <[1%positive := {["hasOwnProperty" := VRef 2%positive]}]>
  {[ 2%positive := piece_loaded ]}.

End Sample.

(** ** Basic facts *)

Lemma strict_eq_true (a b : value) : strict_eq a b = true ↔ a = b.
Proof. unfold strict_eq. apply bool_decide_eq_true. Qed.

Lemma strict_eq_false (a b : value) : strict_eq a b = false ↔ a ≠ b.
Proof. unfold strict_eq. apply bool_decide_eq_false. Qed.

Lemma alloc_loc (h : heap) (o : obj) : (alloc h o).1 = fresh (dom h).
Proof. reflexivity. Qed.

Lemma fresh_loc_unused (h : heap) : h !! fresh (dom h) = None.
Proof. apply not_elem_of_dom, is_fresh. Qed.

Lemma obj_at_Some (h : heap) (l : loc) (o : obj) :
  h !! l = Some o → obj_at h l = o.
Proof. unfold obj_at. by intros ->. Qed.

Lemma obj_at_insert_eq (h : heap) (l : loc) (o : obj) :
  obj_at (<[l := o]> h) l = o.
Proof. unfold obj_at. by rewrite lookup_insert_eq. Qed.

Lemma obj_at_insert_ne (h : heap) (l l' : loc) (o : obj) :
  l ≠ l' → obj_at (<[l := o]> h) l' = obj_at h l'.
Proof. unfold obj_at. intros Hne. by rewrite lookup_insert_ne. Qed.

Lemma obj_at_unused (h : heap) (l : loc) : h !! l = None → obj_at h l = ∅.
Proof. unfold obj_at. by intros ->. Qed.

(** Allocation leaves every object of the store as it was. *)
Lemma insert_fresh_subseteq (h : heap) (o : obj) :
  h ⊆ <[fresh (dom h) := o]> h.
Proof. apply insert_subseteq, fresh_loc_unused. Qed.

Lemma lookup_insert_fresh_old (h : heap) (o : obj) (l : loc) (x : obj) :
  h !! l = Some x → <[fresh (dom h) := o]> h !! l = Some x.
Proof. intros Hl. by apply (lookup_weaken _ _ _ _ Hl), insert_fresh_subseteq. Qed.

(** An own property is what a read returns. *)
Lemma obj_get_own (h : heap) (l : loc) (o : obj) (k : string) (v : value) :
  h !! l = Some o → o !! k = Some v → obj_get h l k = v.
Proof. intros Hl Hk. unfold obj_get. by rewrite (obj_at_Some _ _ _ Hl), Hk. Qed.

(** Without an own property the read is the inherited one. *)
Lemma obj_get_inherited (h : heap) (l : loc) (o : obj) (k : string) :
  h !! l = Some o → o !! k = None → obj_get h l k = inherited k.
Proof. intros Hl Hk. unfold obj_get. by rewrite (obj_at_Some _ _ _ Hl), Hk. Qed.

(** Every value that is truthy can be asked for its [loaded]. *)
Lemma get_loaded_truthy (h : heap) (v : value) :
  truthy v = true → ∃ w, get_prop h v "loaded" = Ok w.
Proof. destruct v as [| | | | | |[|m]]; cbn; intros; try done; eauto. Qed.

(** A naming that tells the kinds of one segment apart gives the segment
    three different event types. *)
Lemma new_MapSegment_distinct (generate : string → string → string) (id : string) :
  (∀ k1 k2, generate id k1 = generate id k2 → k1 = k2) →
  _loadActionType (new_MapSegment generate id)
    ≠ _cleanActionType (new_MapSegment generate id) ∧
  _initActionType (new_MapSegment generate id)
    ≠ _cleanActionType (new_MapSegment generate id) ∧
  _initActionType (new_MapSegment generate id)
    ≠ _loadActionType (new_MapSegment generate id).
Proof. intros Hinj. repeat split; intros Heq%Hinj; discriminate. Qed.

Lemma Sample_generate_inj (id k1 k2 : string) :
  Sample.generate id k1 = Sample.generate id k2 → k1 = k2.
Proof.
  unfold Sample.generate. induction id as [|c id IH]; cbn; intros Heq.
  - by injection Heq.
  - injection Heq as Heq. by apply IH.
Qed.

(** ** Assignment and the [hasOwnProperty] call *)

Lemma set_prop_own (h : heap) (l : loc) (k : string) (v : value) :
  k ≠ "__proto__" →
  set_prop h l k v = Ok (<[l := <[k := v]> (obj_at h l)]> h).
Proof.
  intros Hk. unfold set_prop.
  by rewrite (proj2 (String.eqb_neq _ _) Hk).
Qed.


(** Without an own entry of that name, [state.hasOwnProperty] is the
    built-in. *)
Lemma hasOwnProperty_builtin (h : heap) (l : loc) (k : string) :
  obj_at h l !! "hasOwnProperty" = None →
  hasOwnProperty h (VRef l) k = Ok (bool_decide (is_Some (obj_at h l !! k))).
Proof.
  intros Hn. unfold hasOwnProperty. cbn. unfold obj_get. by rewrite Hn.
Qed.

(** With an own entry of that name that is not a function, the call
    throws. *)
Lemma hasOwnProperty_shadowed (h : heap) (l : loc) (k : string) (v : value) :
  obj_at h l !! "hasOwnProperty" = Some v →
  callable v = false →
  hasOwnProperty h (VRef l) k =
    Throw (TypeError "state.hasOwnProperty is not a function").
Proof.
  intros Hv Hc. unfold hasOwnProperty. cbn. unfold obj_get. rewrite Hv.
  by destruct v as [| | | | | |[|m]].
Qed.

(** ** The copy loop *)

Lemma copy_step_lookup (o : obj) (keys : list string) (acc : obj) (k : string) :
  foldl (copy_step o) acc keys !! k =
    if bool_decide (k ∈ keys ∧ is_Some (o !! k)) then o !! k else acc !! k.
Proof.
  revert acc. induction keys as [|k0 keys IH]; intros acc.
  - case_bool_decide as H; [|done]. destruct H as [H _]. by apply not_elem_of_nil in H.
  - cbn [foldl]. rewrite IH. clear IH. unfold copy_step.
    destruct (decide (k = k0)) as [->|Hne].
    + destruct (o !! k0) as [v|] eqn:Hv.
      * rewrite (bool_decide_eq_true_2 (is_Some (Some v))); [|done].
        rewrite lookup_insert_eq. cbn.
        rewrite (bool_decide_eq_true_2 (k0 ∈ k0 :: keys ∧ _)); [|split; [by left|done]].
        by destruct (bool_decide (k0 ∈ keys ∧ is_Some (Some v))).
      * rewrite (bool_decide_eq_false_2 (is_Some None)); [|by intros [? ?]].
        rewrite !bool_decide_eq_false_2; [done| |]; by intros [_ [? ?]].
    + assert (k ∈ k0 :: keys ↔ k ∈ keys) as Hin.
      { rewrite elem_of_cons. split; [by intros [?|?]|by right]. }
      rewrite (bool_decide_ext _ _ (and_iff_compat_r _ Hin)).
      destruct (bool_decide (k ∈ keys ∧ is_Some (o !! k))); [done|].
      destruct (bool_decide (is_Some (o !! k0))); [by rewrite lookup_insert_ne|done].
Qed.

(** Visiting every own key rebuilds the object. *)
Lemma copy_step_all (o : obj) : foldl (copy_step o) ∅ (map_to_list o).*1 = o.
Proof.
  apply map_eq. intros k. rewrite copy_step_lookup.
  case_bool_decide as Hk; [done|].
  rewrite lookup_empty. symmetry. apply eq_None_not_Some. intros Hs.
  apply Hk. split; [|done]. destruct Hs as [v Hv].
  apply list_elem_of_fmap. exists (k, v). split; [done|].
  by apply elem_of_map_to_list.
Qed.

(** The loop, run on a state object [s] that has no entry named
    [hasOwnProperty] or [__proto__] and is not the object [n] being
    filled, writes to [n] only and neither throws nor leaves the model. *)
Lemma copy_loop_ref (s n : loc) (keys : list string) (h : heap) :
  s ≠ n →
  is_Some (h !! n) →
  obj_at h s !! "hasOwnProperty" = None →
  obj_at h s !! "__proto__" = None →
  copy_loop h (VRef s) n keys =
    Ok (<[n := foldl (copy_step (obj_at h s)) (obj_at h n) keys]> h).
Proof.
  intros Hne. revert h. induction keys as [|k keys IH]; intros h [on Hn] Hh Hp.
  - cbn. f_equal. symmetry. apply insert_id. by rewrite (obj_at_Some _ _ _ Hn).
  - cbn [copy_loop foldl]. rewrite hasOwnProperty_builtin by done.
    cbn [in_store mbind result_bind]. unfold copy_step at 2.
    destruct (obj_at h s !! k) as [v|] eqn:Hk.
    + rewrite (bool_decide_eq_true_2 (is_Some (Some v))) by done.
      cbn [negb get_prop in_store mbind result_bind]. unfold obj_get. rewrite Hk.
      assert (k ≠ "__proto__") as Hkp by congruence.
      rewrite set_prop_own by done. cbn [in_store mbind result_bind].
      rewrite IH.
      * rewrite obj_at_insert_eq, insert_insert_eq. by rewrite obj_at_insert_ne.
      * by rewrite lookup_insert_eq.
      * by rewrite obj_at_insert_ne.
      * by rewrite obj_at_insert_ne.
    + rewrite (bool_decide_eq_false_2 (is_Some None)) by by intros [? ?].
      cbn [negb]. apply IH; [by exists on|done..].
Qed.

(** [_createNewStateObj] on such a state object returns a new object with
    the own properties of the state, at a location not in use before. *)
Lemma createNewStateObj_eq (h : heap) (l : loc) :
  obj_at h l !! "hasOwnProperty" = None →
  obj_at h l !! "__proto__" = None →
  _createNewStateObj h (VRef l) =
    Ok (fresh (dom h), <[fresh (dom h) := obj_at h l]> h).
Proof.
  intros Hh Hp. unfold _createNewStateObj, alloc.
  set (n := fresh (dom h)).
  assert (h !! n = None) as Hn by apply fresh_loc_unused.
  cbn [for_in_keys in_store mbind result_bind].
  destruct (decide (l = n)) as [->|Hne].
  - rewrite obj_at_insert_eq, map_to_list_empty. cbn.
    by rewrite (obj_at_unused _ _ Hn).
  - rewrite copy_loop_ref; [|done|by rewrite lookup_insert_eq|by rewrite obj_at_insert_ne..].
    cbn. rewrite obj_at_insert_eq, insert_insert_eq.
    rewrite obj_at_insert_ne; [|done].
    by rewrite copy_step_all.
Qed.

(** ** The reducer, case by case *)

(** The copy-and-set both the load case and the uninitialized init case
    perform, on a state object the loop runs through and for a key other
    than [__proto__]. *)
Lemma copy_and_set (h : heap) (l : loc) (k : string) (v : value) :
  obj_at h l !! "hasOwnProperty" = None →
  obj_at h l !! "__proto__" = None →
  k ≠ "__proto__" →
  ('(newState, h1) ← _createNewStateObj h (VRef l);
   h2 ← in_store h1 (set_prop h1 newState k v);
   mret (VRef newState, h2)) =
  Ok (VRef (fresh (dom h)), <[fresh (dom h) := <[k := v]> (obj_at h l)]> h).
Proof.
  intros Hh Hp Hk. rewrite createNewStateObj_eq by done.
  cbn [mbind result_bind]. rewrite set_prop_own by done.
  cbn. by rewrite obj_at_insert_eq, insert_insert_eq.
Qed.

Lemma reducer_clean (seg : MapSegment) (h : heap) (l : loc) (a : action) :
  a_type a = _cleanActionType seg →
  _getReducer seg h (VRef l) a = Ok (VRef (fresh (dom h)), <[fresh (dom h) := ∅]> h).
Proof.
  intros Ht. unfold _getReducer. cbn [truthy negb].
  by rewrite (proj2 (String.eqb_eq _ _) Ht).
Qed.

Lemma reducer_load (seg : MapSegment) (h : heap) (l : loc) (a : action) :
  a_type a = _loadActionType seg →
  _loadActionType seg ≠ _cleanActionType seg →
  obj_at h l !! "hasOwnProperty" = None →
  obj_at h l !! "__proto__" = None →
  prop_key (a_queryId a) ≠ "__proto__" →
  _getReducer seg h (VRef l) a =
    Ok (VRef (fresh (dom h)),
        <[fresh (dom h) := <[prop_key (a_queryId a) := a_payload a]> (obj_at h l)]> h).
Proof.
  intros Ht Hne Hh Hp Hk. unfold _getReducer. cbn [truthy negb].
  rewrite Ht, (proj2 (String.eqb_neq _ _) Hne), String.eqb_refl.
  by apply copy_and_set.
Qed.

Lemma reducer_init_loaded (seg : MapSegment) (h : heap) (l : loc) (a : action)
    (entry ld : value) :
  a_type a = _initActionType seg →
  _initActionType seg ≠ _cleanActionType seg →
  _initActionType seg ≠ _loadActionType seg →
  obj_get h l (prop_key (a_queryId a)) = entry →
  truthy entry = true →
  get_prop h entry "loaded" = Ok ld →
  truthy ld = true →
  _getReducer seg h (VRef l) a = Ok (VRef l, h).
Proof.
  intros Ht Hc Hl He Hte Hld Htl. unfold _getReducer. cbn [truthy negb].
  rewrite Ht, (proj2 (String.eqb_neq _ _) Hc), (proj2 (String.eqb_neq _ _) Hl).
  rewrite String.eqb_refl. cbn. rewrite He, Hte. cbn. rewrite Hld. cbn.
  by rewrite Htl.
Qed.

Lemma reducer_init_uninitialized (seg : MapSegment) (h : heap) (l : loc)
    (a : action) :
  a_type a = _initActionType seg →
  _initActionType seg ≠ _cleanActionType seg →
  _initActionType seg ≠ _loadActionType seg →
  obj_at h l !! "hasOwnProperty" = None →
  obj_at h l !! "__proto__" = None →
  prop_key (a_queryId a) ≠ "__proto__" →
  (truthy (obj_get h l (prop_key (a_queryId a))) = false ∨
   ∃ ld, get_prop h (obj_get h l (prop_key (a_queryId a))) "loaded" = Ok ld ∧
         truthy ld = false) →
  _getReducer seg h (VRef l) a =
    Ok (VRef (fresh (dom h)),
        <[fresh (dom h) := <[prop_key (a_queryId a) := a_payload a]> (obj_at h l)]> h).
Proof.
  intros Ht Hc Hl Hh Hp Hk Hu. unfold _getReducer. cbn [truthy negb].
  rewrite Ht, (proj2 (String.eqb_neq _ _) Hc), (proj2 (String.eqb_neq _ _) Hl).
  rewrite String.eqb_refl. cbn [get_prop in_store mbind result_bind].
  destruct (truthy (obj_get h l (prop_key (a_queryId a)))) eqn:Hte; cbn [negb].
  - destruct Hu as [?|(ld & Hld & Htl)]; [done|].
    rewrite Hld. cbn [in_store mbind result_bind mret result_ret].
    rewrite Htl. cbn [negb]. by apply copy_and_set.
  - cbn [mbind result_bind mret result_ret]. by apply copy_and_set.
Qed.

Lemma reducer_other (seg : MapSegment) (h : heap) (state : value) (a : action) :
  truthy state = true →
  a_type a ≠ _cleanActionType seg →
  a_type a ≠ _loadActionType seg →
  a_type a ≠ _initActionType seg →
  _getReducer seg h state a = Ok (state, h).
Proof.
  intros Hs Hc Hl Hi. unfold _getReducer. rewrite Hs. cbn [negb].
  by rewrite (proj2 (String.eqb_neq _ _) Hc), (proj2 (String.eqb_neq _ _) Hl),
    (proj2 (String.eqb_neq _ _) Hi).
Qed.

(** A missing state is replaced by a new empty object before anything
    else happens. *)
Lemma reducer_missing_state (seg : MapSegment) (h : heap) (state : value)
    (a : action) :
  truthy state = false →
  _getReducer seg h state a =
    _getReducer seg (<[fresh (dom h) := ∅]> h) (VRef (fresh (dom h))) a.
Proof. intros Hs. unfold _getReducer. rewrite Hs. reflexivity. Qed.

(** A state the loop runs through is, once a missing one has been
    replaced, a state object of a store that has every object of the
    store before, and has no entry named [hasOwnProperty] or
    [__proto__]. *)
Lemma copies_cleanly_object (seg : MapSegment) (h : heap) (state : value)
    (a : action) :
  copies_cleanly h state →
  ∃ (hx : heap) (lx : loc), h ⊆ hx ∧
    _getReducer seg h state a = _getReducer seg hx (VRef lx) a ∧
    obj_at hx lx !! "hasOwnProperty" = None ∧
    obj_at hx lx !! "__proto__" = None ∧
    (∀ l, state = VRef l → hx = h ∧ lx = l) ∧
    (truthy state = false → obj_at hx lx = ∅).
Proof.
  intros Hcc.
  destruct (truthy state) eqn:Hs.
  - assert (∃ l, state = VRef l) as [l ->].
    { destruct state; cbn in *; try congruence. by eexists. }
    cbn in Hcc. destruct Hcc as [Hh Hp]. exists h, l. repeat split; try done.
    congruence.
  - exists (<[fresh (dom h) := ∅]> h), (fresh (dom h)).
    split; [apply insert_fresh_subseteq|].
    split; [by apply reducer_missing_state|].
    rewrite obj_at_insert_eq. split; [done|]. split; [done|]. split; [|done].
    intros l Heq. by rewrite Heq in Hs.
Qed.

(** ** What the reducer leaves alone, and where the model stops *)










(** ** Properties of the reducer *)


(** C7. The clean event is a full reset: for every store and every
    state, empty or not, the reducer returns a new object that has no
    entry at all. *)
Theorem clean_yields_empty_mapping (seg : MapSegment) (h : heap) (state : value) :
  ∃ l h', _getReducer seg h state (_createSyncCleanAction seg) = Ok (VRef l, h') ∧
    h' !! l = Some ∅ ∧ h !! l = None.
Proof.
  destruct (truthy state) eqn:Hs.
  - exists (fresh (dom h)), (<[fresh (dom h) := ∅]> h).
    unfold _getReducer. rewrite Hs. cbn [negb _createSyncCleanAction a_type].
    rewrite String.eqb_refl. cbn.
    split; [done|]. split; [apply lookup_insert_eq|apply fresh_loc_unused].
  - rewrite (reducer_missing_state _ _ _ _ Hs).
    rewrite reducer_clean; [|done].
    set (h1 := <[fresh (dom h) := ∅]> h).
    exists (fresh (dom h1)), (<[fresh (dom h1) := ∅]> h1).
    split; [done|]. split; [apply lookup_insert_eq|].
    pose proof (fresh_loc_unused h1) as Hn.
    destruct (h !! fresh (dom h1)) as [o|] eqn:Ho; [|done].
    assert (h1 !! fresh (dom h1) = Some o) as Hc
      by apply (lookup_weaken _ _ _ _ Ho), insert_fresh_subseteq.
    congruence.
Qed.

(** C9, as the code has it. An event whose type is none of the segment's
    load, init and clean types leaves a state that is there alone: the
    reducer returns the very state it was given, in an unchanged store.
    A missing state it replaces first, and what it returns then is the new
    empty object. *)
Theorem unknown_event_returns_same_state (seg : MapSegment) (h : heap)
    (state : value) (a : action) :
  a_type a ≠ _loadActionType seg →
  a_type a ≠ _initActionType seg →
  a_type a ≠ _cleanActionType seg →
  _getReducer seg h state a =
    if truthy state then Ok (state, h)
    else Ok (VRef (fresh (dom h)), <[fresh (dom h) := ∅]> h).
Proof.
  intros Hl Hi Hc. destruct (truthy state) eqn:Hs.
  - by apply reducer_other.
  - rewrite (reducer_missing_state _ _ _ _ Hs). by apply reducer_other.
Qed.

Lemma unknown_event_returns_same_state_witness :
  _getReducer Sample.seg Sample.h_loaded (VRef 1%positive)
    (Action "OtherSegment.LOAD" (Some "Q1") VNull)
  = Ok (VRef 1%positive, Sample.h_loaded).
Proof.
  apply (unknown_event_returns_same_state Sample.seg Sample.h_loaded
           (VRef 1%positive) (Action "OtherSegment.LOAD" (Some "Q1") VNull));
    by vm_compute.
Defined.

(** C9 as stated fails. Given the missing state of the store's first
    call and an event of no known type, the reducer returns a new object
    and not the state it was given. *)
Lemma unknown_event_counterexample :
  ∃ n h',
    _getReducer Sample.seg Sample.h_loaded VUndef
      (Action "@@redux/INIT" None VUndef) = Ok (VRef n, h') ∧
    _isStateEqual (VRef n) VUndef = false ∧
    Sample.h_loaded !! n = None ∧
    h' !! n = Some ∅.
Proof. eexists _, _. by vm_compute. Qed.

(** C3. An init event for a query whose piece is loaded is a no-op that
    shares structure: when the state has, at the query identity, a piece
    whose [loaded] is [true], the reducer returns the very state object it
    was given, in an unchanged store. *)
Theorem init_on_loaded_returns_same_state (seg : MapSegment) (h : heap)
    (l p : loc) (o po : obj) (q : string) (payload : value) :
  _initActionType seg ≠ _cleanActionType seg →
  _initActionType seg ≠ _loadActionType seg →
  h !! l = Some o →
  o !! q = Some (VRef p) →
  h !! p = Some po →
  po !! "loaded" = Some (VBool true) →
  _getReducer seg h (VRef l) (Action (_initActionType seg) (Some q) payload)
    = Ok (VRef l, h).
Proof.
  intros Hc Hl Hs Hq Hp Hld.
  apply (reducer_init_loaded seg h l _ (VRef p) (VBool true)); try done.
  - by apply (obj_get_own _ _ o).
  - cbn. by rewrite (obj_get_own _ _ po _ (VBool true)).
Qed.

Lemma init_on_loaded_returns_same_state_witness :
  _getReducer Sample.seg Sample.h_loaded (VRef 1%positive)
    (Action (_initActionType Sample.seg) (Some "Q1") VNull)
  = Ok (VRef 1%positive, Sample.h_loaded).
Proof.
  apply (init_on_loaded_returns_same_state Sample.seg Sample.h_loaded
           1%positive 2%positive {["Q1" := VRef 2%positive]} Sample.piece_loaded
           "Q1" VNull); by vm_compute.
Defined.

(** The first key the loop visits is enough for the throw when the state
    has an entry named [hasOwnProperty] that is not a function. *)
Lemma createNewStateObj_shadowed (h : heap) (l : loc) (o : obj) (v : value) :
  h !! l = Some o →
  o !! "hasOwnProperty" = Some v →
  callable v = false →
  _createNewStateObj h (VRef l) =
    Throw (TypeError "state.hasOwnProperty is not a function",
           <[fresh (dom h) := ∅]> h).
Proof.
  intros Hs Hv Hc. unfold _createNewStateObj, alloc.
  pose proof (fresh_loc_unused h) as Hn.
  assert (obj_at (<[fresh (dom h) := ∅]> h) l = o) as Ho.
  { rewrite obj_at_insert_ne by congruence. by apply obj_at_Some. }
  cbn [for_in_keys in_store mbind result_bind]. rewrite Ho.
  destruct (map_to_list o).*1 as [|k keys] eqn:Hkeys.
  { apply fmap_nil_inv, map_to_list_empty_iff in Hkeys. by rewrite Hkeys in Hv. }
  cbn [copy_loop].
  rewrite (hasOwnProperty_shadowed _ _ _ v); [done|by rewrite Ho|done].
Qed.

(** C4, where the code breaks it. A state object that has an entry named
    [hasOwnProperty], as a load for a query of that identity leaves one,
    can no longer be copied: every load event on it, for any query and
    payload, throws a [TypeError] at the first key of the copy and returns
    no state; the store has gained the empty object the copy had begun. *)
Theorem load_throws_on_hasOwnProperty_entry (seg : MapSegment) (h : heap)
    (l : loc) (o : obj) (v : value) (q : string) (P : value) :
  _loadActionType seg ≠ _cleanActionType seg →
  h !! l = Some o →
  o !! "hasOwnProperty" = Some v →
  callable v = false →
  _getReducer seg h (VRef l) (Action (_loadActionType seg) (Some q) P) =
    Throw (TypeError "state.hasOwnProperty is not a function",
           <[fresh (dom h) := ∅]> h).
Proof.
  intros Hc Hs Hv Hcall. unfold _getReducer. cbn [truthy negb a_type].
  rewrite (proj2 (String.eqb_neq _ _) Hc), String.eqb_refl.
  by rewrite (createNewStateObj_shadowed h l o v).
Qed.

Lemma load_throws_on_hasOwnProperty_entry_witness :
  _getReducer Sample.seg Sample.h_shadowed (VRef 1%positive)
    (Action (_loadActionType Sample.seg) (Some "Q1") (VRef 2%positive)) =
    Throw (TypeError "state.hasOwnProperty is not a function",
           <[fresh (dom Sample.h_shadowed) := ∅]> Sample.h_shadowed).
Proof.
  apply (load_throws_on_hasOwnProperty_entry Sample.seg Sample.h_shadowed
           1%positive {["hasOwnProperty" := VRef 2%positive]} (VRef 2%positive)
           "Q1" (VRef 2%positive)); by vm_compute.
Defined.

(** A load event on a state the copy loop runs through, missing or not,
    for a key other than [__proto__]: the new object is made in a store
    that still has every object of the store before the call. *)
Lemma load_outcome (seg : MapSegment) (h : heap) (state : value) (a : action) :
  a_type a = _loadActionType seg →
  _loadActionType seg ≠ _cleanActionType seg →
  copies_cleanly h state →
  prop_key (a_queryId a) ≠ "__proto__" →
  ∃ (hx : heap) (ox : obj), h ⊆ hx ∧
    (∀ l, state = VRef l → hx = h ∧ ox = obj_at h l) ∧
    (truthy state = false → ox = ∅) ∧
    _getReducer seg h state a =
      Ok (VRef (fresh (dom hx)),
          <[fresh (dom hx) := <[prop_key (a_queryId a) := a_payload a]> ox]> hx).
Proof.
  intros Ht Hc Hcc Hk.
  destruct (copies_cleanly_object seg h state a Hcc)
    as (hx & lx & Hsub & -> & Hh & Hp & Href & Hmiss).
  exists hx, (obj_at hx lx). split; [done|]. split.
  { intros l Hl. destruct (Href l Hl) as [-> ->]. done. }
  split; [done|]. by apply reducer_load.
Qed.

(** C1, as the code has it. A load whose piece is loaded wins over a later
    init: for every store, every state that is missing or is a state
    object with no entry named [hasOwnProperty] or [__proto__], every
    query identity [q] other than [__proto__] and every piece [P] whose
    [loaded] field is truthy, a load event for [q] with payload [P]
    followed, at any later time, by an init event for [q] leaves [P] as
    the entry at [q]; the init returns the very state object the load
    made. *)
Theorem load_then_init_keeps_loaded_piece (seg : MapSegment) (h : heap)
    (s0 : value) (q : string) (p : loc) (po : obj) (ld : value) :
  _loadActionType seg ≠ _cleanActionType seg →
  _initActionType seg ≠ _cleanActionType seg →
  _initActionType seg ≠ _loadActionType seg →
  copies_cleanly h s0 →
  q ≠ "__proto__" →
  h !! p = Some po →
  po !! "loaded" = Some ld →
  truthy ld = true →
  ∃ n h1,
    _getReducer seg h s0 (Action (_loadActionType seg) (Some q) (VRef p))
      = Ok (VRef n, h1) ∧
    ∀ (h2 : heap) (payload : value), h1 ⊆ h2 →
      _getReducer seg h2 (VRef n) (Action (_initActionType seg) (Some q) payload)
        = Ok (VRef n, h2) ∧
      get_prop h2 (VRef n) q = Ok (VRef p).
Proof.
  intros Hlc Hic Hil Hcc Hq Hp Hld Ht.
  destruct (load_outcome seg h s0 (Action (_loadActionType seg) (Some q) (VRef p))
              eq_refl Hlc Hcc Hq) as (hx & ox & Hsub & _ & _ & ->).
  change (prop_key (a_queryId (Action (_loadActionType seg) (Some q) (VRef p))))
    with q.
  cbn [a_payload].
  set (n := fresh (dom hx)).
  exists n, (<[n := <[q := VRef p]> ox]> hx). split; [done|].
  intros h2 payload Hsub2.
  assert (hx !! p = Some po) as Hpx by apply (lookup_weaken _ _ _ _ Hp Hsub).
  assert (n ≠ p) as Hne.
  { intros Heq. rewrite <- Heq in Hpx. unfold n in Hpx.
    by rewrite fresh_loc_unused in Hpx. }
  assert (h2 !! n = Some (<[q := VRef p]> ox)) as Hn2.
  { apply (lookup_weaken _ _ _ _ (lookup_insert_eq _ _ _) Hsub2). }
  assert (h2 !! p = Some po) as Hp2.
  { apply (lookup_weaken (<[n := <[q := VRef p]> ox]> hx)); [|done].
    by rewrite lookup_insert_ne. }
  assert (obj_get h2 n q = VRef p) as Hget.
  { apply (obj_get_own _ _ _ _ _ Hn2). apply lookup_insert_eq. }
  split; [|by cbn; rewrite Hget].
  apply (reducer_init_loaded seg h2 n _ (VRef p) ld); try done.
  cbn. by rewrite (obj_get_own _ _ po _ ld).
Qed.

Lemma load_then_init_keeps_loaded_piece_witness :
  ∃ n h1,
    _getReducer Sample.seg Sample.h_loaded VUndef
      (Action (_loadActionType Sample.seg) (Some "Q1") (VRef 2%positive))
      = Ok (VRef n, h1) ∧
    ∀ (h2 : heap) (payload : value), h1 ⊆ h2 →
      _getReducer Sample.seg h2 (VRef n)
        (Action (_initActionType Sample.seg) (Some "Q1") payload)
        = Ok (VRef n, h2) ∧
      get_prop h2 (VRef n) "Q1" = Ok (VRef 2%positive).
Proof.
  apply (load_then_init_keeps_loaded_piece Sample.seg Sample.h_loaded VUndef
           "Q1" 2%positive Sample.piece_loaded (VBool true)); by vm_compute.
Defined.

(** C1 as stated fails. A load that reports errors makes a piece whose
    [loaded] is [false]; the init that follows overwrites it, so the entry
    is the init's uninitialized piece and no longer the load's payload. *)
Lemma load_then_init_counterexample :
  Sample.failed_load_then_init = Ok (VRef 3%positive, VRef 5%positive) ∧
  strict_eq (VRef 5%positive) (VRef 3%positive) = false.
Proof. split; by vm_compute. Qed.

(** ** The change detector *)

(** C2. Soundness of [_comparePiece]: on any two state objects and any
    query identity it returns; when it returns the one-element array, the
    values the two states read at the query identity are different and
    the element is the value the second state reads; when it returns
    [null], either the two states are the same object or the values they
    read at the query identity are the same. *)
Theorem comparePiece_sound (h : heap) (l1 l2 : loc) (q : string) :
  ∃ r, _comparePiece h (VRef l1) (VRef l2) q = Ok r ∧
    get_prop h (VRef l1) q = Ok (obj_get h l1 q) ∧
    get_prop h (VRef l2) q = Ok (obj_get h l2 q) ∧
    match r with
    | Some pieces =>
        obj_get h l1 q ≠ obj_get h l2 q ∧
        pieces = [obj_get h l2 q]
    | None =>
        l1 = l2 ∨ obj_get h l1 q = obj_get h l2 q
    end.
Proof.
  unfold _comparePiece, _isStateEqual.
  destruct (strict_eq (VRef l1) (VRef l2)) eqn:Hs.
  - exists None. repeat split; try done.
    left. apply strict_eq_true in Hs. congruence.
  - cbn. destruct (strict_eq (obj_get h l1 q) (obj_get h l2 q)) eqn:Hq.
    + exists None. repeat split; try done. right. by apply strict_eq_true.
    + exists (Some [obj_get h l2 q]). repeat split; try done.
      by apply strict_eq_false.
Qed.

(** Two states without an own entry at the query identity compare as
    unchanged there: both read what [Object.prototype] has for it. *)
Lemma comparePiece_no_entry (h : heap) (l1 l2 : loc) (q : string) :
  obj_at h l1 !! q = None →
  obj_at h l2 !! q = None →
  _comparePiece h (VRef l1) (VRef l2) q = Ok None.
Proof.
  intros Hq1 Hq2. unfold _comparePiece.
  destruct (_isStateEqual (VRef l1) (VRef l2)); [done|].
  cbn. unfold obj_get. rewrite Hq1, Hq2.
  by rewrite (proj2 (strict_eq_true _ _) eq_refl).
Qed.

(** C10. A query identity neither state has an entry for is never
    reported: [_comparePiece] returns [null], also when the two states are
    different objects. *)
Theorem comparePiece_absent_query (h : heap) (l1 l2 : loc) (o1 o2 : obj)
    (q : string) :
  h !! l1 = Some o1 →
  h !! l2 = Some o2 →
  o1 !! q = None →
  o2 !! q = None →
  _comparePiece h (VRef l1) (VRef l2) q = Ok None.
Proof.
  intros H1 H2 Hq1 Hq2. apply comparePiece_no_entry.
  - by rewrite (obj_at_Some _ _ _ H1).
  - by rewrite (obj_at_Some _ _ _ H2).
Qed.

Lemma comparePiece_absent_query_witness :
  _isStateEqual (VRef 1%positive) (VRef 3%positive) = false ∧
  _comparePiece Sample.h_cleaned (VRef 1%positive) (VRef 3%positive) "Q2" = Ok None.
Proof.
  split; [by vm_compute|].
  apply (comparePiece_absent_query Sample.h_cleaned 1%positive 3%positive
           {["Q1" := VRef 2%positive]} ∅ "Q2"); by vm_compute.
Defined.

(** A subscriber to a query that was never populated is not notified by
    a clean event. *)
Lemma comparePiece_after_clean (seg : MapSegment) (h : heap) (l : loc) (o : obj)
    (q : string) :
  h !! l = Some o →
  o !! q = None →
  ∃ n h', _getReducer seg h (VRef l) (_createSyncCleanAction seg) = Ok (VRef n, h') ∧
    _comparePiece h' (VRef l) (VRef n) q = Ok None.
Proof.
  intros Hs Hq. rewrite reducer_clean; [|done].
  eexists _, _. split; [done|].
  pose proof (fresh_loc_unused h) as Hn.
  apply comparePiece_no_entry.
  - rewrite obj_at_insert_ne; [|congruence]. by rewrite (obj_at_Some _ _ _ Hs).
  - by rewrite obj_at_insert_eq.
Qed.

(** ** The event creators *)

(** C6, as the code has it. The piece [_createSyncLoadActionObject] makes
    is a new object carrying the payload and the errors it was given, and
    its [loaded] is [true] exactly when the errors argument is falsy; for
    an errors argument that is [undefined], [null] or an object (an array)
    that is [errors == null]; so [loaded] being [true] implies the errors
    are falsy. *)
Theorem syncLoad_loaded_iff_errors_falsy (seg : MapSegment) (now : Z) (h : heap)
    (queryId : string) (payload errors : value) :
  ∃ p h',
    _createSyncLoadActionObject seg now h queryId payload errors
      = (Action (_loadActionType seg) (Some queryId) (VRef p), h') ∧
    h !! p = None ∧
    get_prop h' (VRef p) "data" = Ok payload ∧
    get_prop h' (VRef p) "errors" = Ok errors ∧
    get_prop h' (VRef p) "loaded" = Ok (VBool (negb (truthy errors))) ∧
    match errors with
    | VUndef | VNull | VRef _ => negb (truthy errors) = loose_eq_null errors
    | _ => True
    end.
Proof.
  unfold _createSyncLoadActionObject, alloc.
  eexists _, _. split; [reflexivity|].
  split; [apply fresh_loc_unused|].
  cbn. unfold obj_get. rewrite !obj_at_insert_eq.
  repeat split; by destruct errors.
Qed.

(** C6 as stated fails. With [false] for the errors the piece is loaded,
    yet [false == null] does not hold; and with the errors left out the
    piece is loaded and its [errors] is [undefined], which is not
    [=== null]. *)
Lemma syncLoad_loaded_counterexample :
  (let '(a, h') :=
     _createSyncLoadActionObject Sample.seg 1000 Sample.h_empty "Q1"
       (VStr "alice") (VBool false) in
   get_prop h' (a_payload a) "loaded" = Ok (VBool true) ∧
   loose_eq_null (VBool false) = false) ∧
  (let '(a, h') :=
     _createSyncLoadActionObject Sample.seg 1000 Sample.h_empty "Q1"
       (VStr "alice") VUndef in
   get_prop h' (a_payload a) "loaded" = Ok (VBool true) ∧
   get_prop h' (a_payload a) "errors" = Ok VUndef ∧
   strict_eq VUndef VNull = false).
Proof. by vm_compute. Qed.

(** ** The abstract hooks *)

(** C8. Without an override both hooks throw, on every input and as the
    result of the call itself: the query identity derivation and the
    thunk function generation each return a thrown [Error]; so does the
    load creator, which calls the first before anything else. *)
Theorem abstract_hooks_throw (this id : string) :
  (∀ query : value,
     @_generateQueryId (MapSegment_hooks this) query =
       Throw (Error ("User must override this _generateQueryId method! Instance: "
                     ++ this ++ "."))) ∧
  (∀ thunk : Thunk,
     @_generateThunkFunction (MapSegment_hooks this) thunk =
       Throw (Error ("User must override _generateThunkFunction method! Instance: "
                     ++ this ++ "."))) ∧
  (∀ (query : value) (queryId : string),
     ∃ e, @_createLoadAction (MapSegment_hooks this) id query queryId = Throw e) ∧
  (∀ query : value,
     ∃ e, @actionCreator_load (MapSegment_hooks this) id query = Throw e).
Proof. repeat split; intros; try reflexivity; eexists; reflexivity. Qed.

(** ** Further properties of the reducer *)

(** A key the state has no own entry for reads as not initialized,
    whatever [Object.prototype] has for it: the built-ins have no
    [loaded]. *)
Lemma inherited_uninitialized (h : heap) (k : string) :
  truthy (inherited k) = false ∨
  ∃ ld, get_prop h (inherited k) "loaded" = Ok ld ∧ truthy ld = false.
Proof.
  unfold inherited.
  destruct (String.eqb k "__proto__"); [right; by exists VUndef|].
  destruct (is_object_method k); [right; by exists VUndef|by left].
Qed.

(** A clean event on any state, missing or not: the empty object is made
    in a store that still has every object of the store before the call. *)
Lemma clean_outcome (seg : MapSegment) (h : heap) (state : value) (a : action) :
  a_type a = _cleanActionType seg →
  ∃ hx : heap, h ⊆ hx ∧
    _getReducer seg h state a =
      Ok (VRef (fresh (dom hx)), <[fresh (dom hx) := ∅]> hx).
Proof.
  intros Ht. destruct (truthy state) eqn:Hs.
  - exists h. split; [done|].
    unfold _getReducer. rewrite Hs. cbn [negb].
    by rewrite (proj2 (String.eqb_eq _ _) Ht).
  - rewrite (reducer_missing_state _ _ _ _ Hs).
    eexists. split; [apply (insert_fresh_subseteq h ∅)|].
    by apply reducer_clean.
Qed.

(** What an event other than clean does to a state object the copy loop
    runs through, for a key other than [__proto__]: nothing, or a copy
    with the entry at the event's query identity set to its payload; the
    copy is made for a load, and for an init that reads a value at the
    query identity that is falsy or not loaded. *)
Lemma reducer_not_clean (seg : MapSegment) (h : heap) (l : loc) (o : obj)
    (a : action) :
  h !! l = Some o →
  o !! "hasOwnProperty" = None →
  o !! "__proto__" = None →
  prop_key (a_queryId a) ≠ "__proto__" →
  a_type a ≠ _cleanActionType seg →
  (a_type a ≠ _loadActionType seg ∧
   _getReducer seg h (VRef l) a = Ok (VRef l, h)) ∨
  ((a_type a = _loadActionType seg ∨
    (a_type a = _initActionType seg ∧
     (truthy (obj_get h l (prop_key (a_queryId a))) = false ∨
      ∃ ld, get_prop h (obj_get h l (prop_key (a_queryId a))) "loaded" = Ok ld ∧
            truthy ld = false))) ∧
   _getReducer seg h (VRef l) a =
     Ok (VRef (fresh (dom h)),
         <[fresh (dom h) := <[prop_key (a_queryId a) := a_payload a]> o]> h)).
Proof.
  intros Hs Hh Hp Hk Hc.
  pose proof (obj_at_Some _ _ _ Hs) as Ho.
  unfold _getReducer. cbn [truthy negb].
  rewrite (proj2 (String.eqb_neq _ _) Hc).
  destruct (String.eqb (a_type a) (_loadActionType seg)) eqn:Hl.
  { right. apply String.eqb_eq in Hl. split; [by left|].
    rewrite copy_and_set by (done || by rewrite Ho). by rewrite Ho. }
  apply String.eqb_neq in Hl.
  destruct (String.eqb (a_type a) (_initActionType seg)) eqn:Hi; [|by left].
  apply String.eqb_eq in Hi.
  cbn [get_prop in_store mbind result_bind].
  destruct (truthy (obj_get h l (prop_key (a_queryId a)))) eqn:He; cbn [negb].
  - destruct (get_loaded_truthy h _ He) as [ld Hld]. rewrite Hld.
    cbn [in_store mbind result_bind mret result_ret].
    destruct (truthy ld) eqn:Htl; cbn [negb]; [by left|].
    right. split; [right; split; [done|]; right; by exists ld|].
    rewrite copy_and_set by (done || by rewrite Ho). by rewrite Ho.
  - right. split; [right; split; [done|by left]|].
    cbn [mbind result_bind mret result_ret].
    rewrite copy_and_set by (done || by rewrite Ho). by rewrite Ho.
Qed.

(** X1. An init event for a query the state has no entry for writes the
    entry: on a state object with no entry named [hasOwnProperty] or
    [__proto__], and for a query identity other than [__proto__], the
    reducer returns a new object that has the payload at the query
    identity and every entry of the state besides; the state object
    itself keeps its entries. *)
Theorem init_on_missing_entry_writes (seg : MapSegment) (h : heap) (l : loc)
    (o : obj) (q : string) (payload : value) :
  _initActionType seg ≠ _cleanActionType seg →
  _initActionType seg ≠ _loadActionType seg →
  h !! l = Some o →
  o !! "hasOwnProperty" = None →
  o !! "__proto__" = None →
  q ≠ "__proto__" →
  o !! q = None →
  ∃ n h',
    _getReducer seg h (VRef l) (Action (_initActionType seg) (Some q) payload)
      = Ok (VRef n, h') ∧
    h !! n = None ∧
    h' !! n = Some (<[q := payload]> o) ∧
    h' !! l = Some o.
Proof.
  intros Hc Hl Hs Hh Hp Hqp Hq.
  pose proof (fresh_loc_unused h) as Hn.
  pose proof (obj_at_Some _ _ _ Hs) as Ho.
  exists (fresh (dom h)), (<[fresh (dom h) := <[q := payload]> o]> h).
  split.
  { rewrite reducer_init_uninitialized; try done; try by rewrite Ho.
    change (prop_key (a_queryId (Action (_initActionType seg) (Some q) payload)))
      with q.
    rewrite (obj_get_inherited _ _ _ _ Hs Hq). apply inherited_uninitialized. }
  split; [done|]. split; [apply lookup_insert_eq|].
  rewrite lookup_insert_ne; [done|congruence].
Qed.

Lemma init_on_missing_entry_writes_witness :
  ∃ n h',
    _getReducer Sample.seg Sample.h_loaded (VRef 1%positive)
      (Action (_initActionType Sample.seg) (Some "Q2") VNull)
      = Ok (VRef n, h') ∧
    Sample.h_loaded !! n = None ∧
    h' !! n = Some (<["Q2" := VNull]> ({["Q1" := VRef 2%positive]} : obj)) ∧
    h' !! 1%positive = Some {["Q1" := VRef 2%positive]}.
Proof.
  apply (init_on_missing_entry_writes Sample.seg Sample.h_loaded 1%positive
           {["Q1" := VRef 2%positive]} "Q2" VNull); by vm_compute.
Defined.

(** X2. An init event for a query whose entry is a piece that is not
    loaded (its [loaded] is falsy or it has none) overwrites the entry:
    on a state object with no entry named [hasOwnProperty] or
    [__proto__], the reducer returns a new object with the payload at the
    query identity and the other entries of the state; the state object
    and the old piece stay as they were. *)
Theorem init_on_unloaded_entry_overwrites (seg : MapSegment) (h : heap)
    (l p : loc) (o po : obj) (q : string) (payload : value) :
  _initActionType seg ≠ _cleanActionType seg →
  _initActionType seg ≠ _loadActionType seg →
  h !! l = Some o →
  o !! "hasOwnProperty" = None →
  o !! "__proto__" = None →
  o !! q = Some (VRef p) →
  h !! p = Some po →
  truthy (default VUndef (po !! "loaded")) = false →
  ∃ n h',
    _getReducer seg h (VRef l) (Action (_initActionType seg) (Some q) payload)
      = Ok (VRef n, h') ∧
    h !! n = None ∧
    h' !! n = Some (<[q := payload]> o) ∧
    h' !! l = Some o ∧
    h' !! p = Some po.
Proof.
  intros Hc Hl Hs Hh Hpr Hq Hp Hld.
  pose proof (fresh_loc_unused h) as Hn.
  pose proof (obj_at_Some _ _ _ Hs) as Ho.
  assert (q ≠ "__proto__") as Hqp by congruence.
  exists (fresh (dom h)), (<[fresh (dom h) := <[q := payload]> o]> h).
  split.
  { rewrite reducer_init_uninitialized; try done; try by rewrite Ho.
    right.
    change (prop_key (a_queryId (Action (_initActionType seg) (Some q) payload)))
      with q.
    rewrite (obj_get_own _ _ _ _ _ Hs Hq). cbn. unfold obj_get.
    rewrite (obj_at_Some _ _ _ Hp).
    destruct (po !! "loaded") as [ld|]; [by exists ld|by exists VUndef]. }
  split; [done|]. split; [apply lookup_insert_eq|].
  split; (rewrite lookup_insert_ne; [done|congruence]).
Qed.

Lemma init_on_unloaded_entry_overwrites_witness :
  ∃ n h',
    _getReducer Sample.seg Sample.h_unloaded (VRef 1%positive)
      (Action (_initActionType Sample.seg) (Some "Q1") VNull)
      = Ok (VRef n, h') ∧
    Sample.h_unloaded !! n = None ∧
    h' !! n = Some (<["Q1" := VNull]> ({["Q1" := VRef 2%positive]} : obj)) ∧
    h' !! 1%positive = Some {["Q1" := VRef 2%positive]} ∧
    h' !! 2%positive = Some Sample.piece_unloaded.
Proof.
  apply (init_on_unloaded_entry_overwrites Sample.seg Sample.h_unloaded
           1%positive 2%positive {["Q1" := VRef 2%positive]}
           Sample.piece_unloaded "Q1" VNull); by vm_compute.
Defined.

(** X3. After a clean event nothing is loaded any more: an init event
    that follows, for any query identity other than [__proto__], finds no
    entry and writes its payload, and the state it returns has that one
    entry and no other, whatever the state held before the clean. *)
Theorem clean_then_init_has_one_entry (seg : MapSegment) (h : heap)
    (state : value) (q : string) (payload : value) :
  _initActionType seg ≠ _cleanActionType seg →
  _initActionType seg ≠ _loadActionType seg →
  q ≠ "__proto__" →
  ∃ n1 h1 n2 h2,
    _getReducer seg h state (_createSyncCleanAction seg) = Ok (VRef n1, h1) ∧
    _getReducer seg h1 (VRef n1) (Action (_initActionType seg) (Some q) payload)
      = Ok (VRef n2, h2) ∧
    h2 !! n2 = Some {[q := payload]} ∧
    h2 !! n1 = Some ∅.
Proof.
  intros Hc Hl Hqp.
  destruct (clean_outcome seg h state (_createSyncCleanAction seg) eq_refl)
    as (hx & _ & ->).
  set (n1 := fresh (dom hx)). set (h1 := <[n1 := ∅]> hx).
  assert (h1 !! n1 = Some ∅) as Hn1 by apply lookup_insert_eq.
  pose proof (obj_at_Some _ _ _ Hn1) as Ho.
  pose proof (fresh_loc_unused h1) as Hn2.
  exists n1, h1, (fresh (dom h1)),
    (<[fresh (dom h1) := <[q := payload]> ∅]> h1).
  split; [done|]. split.
  { rewrite reducer_init_uninitialized; try done; try by rewrite Ho.
    change (prop_key (a_queryId (Action (_initActionType seg) (Some q) payload)))
      with q.
    rewrite (obj_get_inherited _ _ ∅ _ Hn1) by done.
    apply inherited_uninitialized. }
  split; [by rewrite lookup_insert_eq, insert_empty|].
  rewrite lookup_insert_ne; [done|congruence].
Qed.

Lemma clean_then_init_has_one_entry_witness :
  ∃ n1 h1 n2 h2,
    _getReducer Sample.seg Sample.h_loaded (VRef 1%positive)
      (_createSyncCleanAction Sample.seg) = Ok (VRef n1, h1) ∧
    _getReducer Sample.seg h1 (VRef n1)
      (Action (_initActionType Sample.seg) (Some "Q1") VNull)
      = Ok (VRef n2, h2) ∧
    h2 !! n2 = Some {["Q1" := VNull]} ∧
    h2 !! n1 = Some ∅.
Proof.
  apply (clean_then_init_has_one_entry Sample.seg Sample.h_loaded
           (VRef 1%positive) "Q1" VNull); by vm_compute.
Defined.

(** X4. Of two load events for the same query the later one wins: on a
    state object with no entry named [hasOwnProperty] or [__proto__], and
    for a query identity that is neither of these names, the state after
    both has the second payload at the query identity and is, entry for
    entry, the state a single load of the second payload gives; the state
    the first load returned is still there with the first payload. *)
Theorem load_twice_last_wins (seg : MapSegment) (h : heap) (l : loc) (o : obj)
    (q : string) (P1 P2 : value) :
  _loadActionType seg ≠ _cleanActionType seg →
  h !! l = Some o →
  o !! "hasOwnProperty" = None →
  o !! "__proto__" = None →
  q ≠ "hasOwnProperty" →
  q ≠ "__proto__" →
  ∃ n1 h1 n2 h2,
    _getReducer seg h (VRef l) (Action (_loadActionType seg) (Some q) P1)
      = Ok (VRef n1, h1) ∧
    _getReducer seg h1 (VRef n1) (Action (_loadActionType seg) (Some q) P2)
      = Ok (VRef n2, h2) ∧
    h2 !! n2 = Some (<[q := P2]> o) ∧
    h2 !! n1 = Some (<[q := P1]> o) ∧
    h2 !! l = Some o.
Proof.
  intros Hc Hs Hh Hp Hqh Hqp.
  pose proof (obj_at_Some _ _ _ Hs) as Ho.
  set (n1 := fresh (dom h)). set (h1 := <[n1 := <[q := P1]> o]> h).
  pose proof (fresh_loc_unused h) as Hf1.
  pose proof (fresh_loc_unused h1) as Hf2.
  assert (h1 !! n1 = Some (<[q := P1]> o)) as Hn1 by apply lookup_insert_eq.
  pose proof (obj_at_Some _ _ _ Hn1) as Ho1.
  assert (h1 !! l = Some o) as Hl1.
  { unfold h1. rewrite lookup_insert_ne; [done|]. unfold n1. congruence. }
  exists n1, h1, (fresh (dom h1)),
    (<[fresh (dom h1) := <[q := P2]> (<[q := P1]> o)]> h1).
  split. { rewrite reducer_load; try done; try by rewrite Ho. }
  split. { rewrite reducer_load; try done; rewrite Ho1; try done;
           by rewrite lookup_insert_ne. }
  split; [by rewrite lookup_insert_eq, insert_insert_eq|].
  split; (rewrite lookup_insert_ne; [done|congruence]).
Qed.

Lemma load_twice_last_wins_witness :
  ∃ n1 h1 n2 h2,
    _getReducer Sample.seg Sample.h_loaded (VRef 1%positive)
      (Action (_loadActionType Sample.seg) (Some "Q1") (VStr "first"))
      = Ok (VRef n1, h1) ∧
    _getReducer Sample.seg h1 (VRef n1)
      (Action (_loadActionType Sample.seg) (Some "Q1") (VStr "second"))
      = Ok (VRef n2, h2) ∧
    h2 !! n2 = Some (<["Q1" := VStr "second"]> ({["Q1" := VRef 2%positive]} : obj)) ∧
    h2 !! n1 = Some (<["Q1" := VStr "first"]> ({["Q1" := VRef 2%positive]} : obj)) ∧
    h2 !! 1%positive = Some {["Q1" := VRef 2%positive]}.
Proof.
  apply (load_twice_last_wins Sample.seg Sample.h_loaded 1%positive
           {["Q1" := VRef 2%positive]} "Q1" (VStr "first") (VStr "second"));
    by vm_compute.
Defined.

(** X5. Load events for two different queries commute: on a state object
    with no entry named [hasOwnProperty] or [__proto__], and for query
    identities that are neither of these names, applied in either order
    they end in states with the same entries, each payload at its own
    query identity and the entries of the starting state besides. *)
Theorem loads_of_different_queries_commute (seg : MapSegment) (h : heap)
    (l : loc) (o : obj) (q1 q2 : string) (P1 P2 : value) :
  _loadActionType seg ≠ _cleanActionType seg →
  h !! l = Some o →
  o !! "hasOwnProperty" = None →
  o !! "__proto__" = None →
  q1 ≠ "hasOwnProperty" → q1 ≠ "__proto__" →
  q2 ≠ "hasOwnProperty" → q2 ≠ "__proto__" →
  q1 ≠ q2 →
  ∃ na ha nb hb,
    ('(s, h1) ← _getReducer seg h (VRef l) (Action (_loadActionType seg) (Some q1) P1);
     _getReducer seg h1 s (Action (_loadActionType seg) (Some q2) P2))
      = Ok (VRef na, ha) ∧
    ('(s, h1) ← _getReducer seg h (VRef l) (Action (_loadActionType seg) (Some q2) P2);
     _getReducer seg h1 s (Action (_loadActionType seg) (Some q1) P1))
      = Ok (VRef nb, hb) ∧
    ha !! na = Some (<[q1 := P1]> (<[q2 := P2]> o)) ∧
    hb !! nb = Some (<[q1 := P1]> (<[q2 := P2]> o)).
Proof.
  intros Hc Hs Hh Hp Hq1h Hq1p Hq2h Hq2p Hne.
  pose proof (obj_at_Some _ _ _ Hs) as Ho.
  rewrite !(reducer_load seg h l); try done; try by rewrite Ho.
  cbn [mbind result_bind a_queryId a_payload prop_key]. rewrite Ho.
  change (default "undefined" (Some q1)) with q1.
  change (default "undefined" (Some q2)) with q2.
  rewrite !reducer_load; try done;
    try (rewrite obj_at_insert_eq; by rewrite lookup_insert_ne).
  cbn [a_queryId a_payload prop_key].
  rewrite !obj_at_insert_eq.
  eexists _, _, _, _. split; [done|]. split; [done|].
  rewrite !lookup_insert_eq. split; [|done].
  change (default "undefined" (Some q1)) with q1.
  change (default "undefined" (Some q2)) with q2.
  by rewrite insert_insert_ne.
Qed.

Lemma loads_of_different_queries_commute_witness :
  ∃ na ha nb hb,
    ('(s, h1) ← _getReducer Sample.seg Sample.h_empty (VRef 1%positive)
                  (Action (_loadActionType Sample.seg) (Some "Q1") (VStr "a"));
     _getReducer Sample.seg h1 s
       (Action (_loadActionType Sample.seg) (Some "Q2") (VStr "b")))
      = Ok (VRef na, ha) ∧
    ('(s, h1) ← _getReducer Sample.seg Sample.h_empty (VRef 1%positive)
                  (Action (_loadActionType Sample.seg) (Some "Q2") (VStr "b"));
     _getReducer Sample.seg h1 s
       (Action (_loadActionType Sample.seg) (Some "Q1") (VStr "a")))
      = Ok (VRef nb, hb) ∧
    ha !! na = Some (<["Q1" := VStr "a"]> (<["Q2" := VStr "b"]> (∅ : obj))) ∧
    hb !! nb = Some (<["Q1" := VStr "a"]> (<["Q2" := VStr "b"]> (∅ : obj))).
Proof.
  apply (loads_of_different_queries_commute Sample.seg Sample.h_empty 1%positive
           ∅ "Q1" "Q2" (VStr "a") (VStr "b")); by vm_compute.
Defined.

(** X6. Only a clean event removes entries: on a state object with no
    entry named [hasOwnProperty] or [__proto__], every event whose type is
    not the clean type and whose query identity is not [__proto__]
    returns a state that has, at every key other than the event's query
    identity, the very entry the state had there; no entry is dropped. *)
Theorem only_clean_removes_entries (seg : MapSegment) (h : heap) (l : loc)
    (o : obj) (a : action) :
  a_type a ≠ _cleanActionType seg →
  h !! l = Some o →
  o !! "hasOwnProperty" = None →
  o !! "__proto__" = None →
  prop_key (a_queryId a) ≠ "__proto__" →
  ∃ n h' o',
    _getReducer seg h (VRef l) a = Ok (VRef n, h') ∧
    h' !! n = Some o' ∧
    (∀ k, k ≠ prop_key (a_queryId a) → o' !! k = o !! k) ∧
    (∀ k, is_Some (o !! k) → is_Some (o' !! k)).
Proof.
  intros Hc Hs Hh Hp Hk.
  destruct (reducer_not_clean seg h l o a Hs Hh Hp Hk Hc) as [[_ ->]|[_ ->]].
  - exists l, h, o. done.
  - eexists _, _, _. split; [done|]. split; [apply lookup_insert_eq|].
    split.
    + intros k Hkk. by rewrite lookup_insert_ne.
    + intros k Hkk. destruct (decide (prop_key (a_queryId a) = k)) as [->|Hne].
      * by rewrite lookup_insert_eq.
      * by rewrite lookup_insert_ne.
Qed.

Lemma only_clean_removes_entries_witness :
  ∃ n h' o',
    _getReducer Sample.seg Sample.h_loaded (VRef 1%positive)
      (Action (_initActionType Sample.seg) (Some "Q2") VNull)
      = Ok (VRef n, h') ∧
    h' !! n = Some o' ∧
    (∀ k, k ≠ "Q2" → o' !! k = ({["Q1" := VRef 2%positive]} : obj) !! k) ∧
    (∀ k, is_Some (({["Q1" := VRef 2%positive]} : obj) !! k) → is_Some (o' !! k)).
Proof.
  apply (only_clean_removes_entries Sample.seg Sample.h_loaded 1%positive
           {["Q1" := VRef 2%positive]}
           (Action (_initActionType Sample.seg) (Some "Q2") VNull)); by vm_compute.
Defined.

(** X7. A loaded piece is replaced only by a load or a clean: when a
    state object with no entry named [hasOwnProperty] or [__proto__] has
    a loaded piece at a query identity, every event that is neither a
    load nor a clean, whatever its payload and its query identity,
    [__proto__] apart, returns a state with that same piece at that query
    identity, and the piece object is as it was. *)
Theorem loaded_piece_survives_other_events (seg : MapSegment) (h : heap)
    (l p : loc) (o po : obj) (q : string) (ld : value) (a : action) :
  a_type a ≠ _cleanActionType seg →
  a_type a ≠ _loadActionType seg →
  h !! l = Some o →
  o !! "hasOwnProperty" = None →
  o !! "__proto__" = None →
  prop_key (a_queryId a) ≠ "__proto__" →
  o !! q = Some (VRef p) →
  h !! p = Some po →
  po !! "loaded" = Some ld →
  truthy ld = true →
  ∃ s' h',
    _getReducer seg h (VRef l) a = Ok (s', h') ∧
    _getPieceObject h' s' q = Ok (VRef p) ∧
    h' !! p = Some po.
Proof.
  intros Hc Hl Hs Hh Hpr Hk Hq Hp Hld Ht.
  pose proof (obj_get_own _ _ _ _ _ Hs Hq) as Hget.
  destruct (reducer_not_clean seg h l o a Hs Hh Hpr Hk Hc) as [[_ ->]|[Hwhy ->]].
  - exists (VRef l), h. split; [done|]. split; [|done].
    unfold _getPieceObject. cbn. by rewrite Hget.
  - pose proof (fresh_loc_unused h) as Hn.
    eexists _, _. split; [done|].
    destruct Hwhy as [?|[Hi Hun]]; [done|].
    assert (prop_key (a_queryId a) ≠ q) as Hne.
    { intros Heq. rewrite Heq, Hget in Hun. cbn in Hun.
      rewrite (obj_get_own _ _ _ _ _ Hp Hld) in Hun.
      destruct Hun as [?|(ld' & [= <-] & ?)]; congruence. }
    split.
    + unfold _getPieceObject. cbn. unfold obj_get.
      by rewrite obj_at_insert_eq, lookup_insert_ne, Hq.
    + rewrite lookup_insert_ne; [done|congruence].
Qed.

Lemma loaded_piece_survives_other_events_witness :
  ∃ s' h',
    _getReducer Sample.seg Sample.h_loaded (VRef 1%positive)
      (Action (_initActionType Sample.seg) (Some "Q2") VNull) = Ok (s', h') ∧
    _getPieceObject h' s' "Q1" = Ok (VRef 2%positive) ∧
    h' !! 2%positive = Some Sample.piece_loaded.
Proof.
  apply (loaded_piece_survives_other_events Sample.seg Sample.h_loaded
           1%positive 2%positive {["Q1" := VRef 2%positive]} Sample.piece_loaded
           "Q1" (VBool true)
           (Action (_initActionType Sample.seg) (Some "Q2") VNull)); by vm_compute.
Defined.

(** X8. A missing state with an event of no known type: the reducer does
    not hand the missing state back, it returns a new empty object. *)
Theorem missing_state_becomes_empty_object (seg : MapSegment) (h : heap)
    (state : value) (a : action) :
  truthy state = false →
  a_type a ≠ _loadActionType seg →
  a_type a ≠ _initActionType seg →
  a_type a ≠ _cleanActionType seg →
  ∃ n, _getReducer seg h state a = Ok (VRef n, <[n := ∅]> h) ∧ h !! n = None.
Proof.
  intros Hs Hl Hi Hc. rewrite (reducer_missing_state _ _ _ _ Hs).
  exists (fresh (dom h)). split; [|apply fresh_loc_unused].
  by apply reducer_other.
Qed.

Lemma missing_state_becomes_empty_object_witness :
  ∃ n, _getReducer Sample.seg Sample.h_loaded VUndef
         (Action "@@redux/INIT" None VUndef)
       = Ok (VRef n, <[n := ∅]> Sample.h_loaded) ∧
       Sample.h_loaded !! n = None.
Proof.
  apply (missing_state_becomes_empty_object Sample.seg Sample.h_loaded VUndef
           (Action "@@redux/INIT" None VUndef)); by vm_compute.
Defined.

(** X9. A load event on a missing state, for a query identity other than
    [__proto__]: the state returned has the payload at the query identity
    and nothing else. *)
Theorem load_on_missing_state (seg : MapSegment) (h : heap) (state : value)
    (q : string) (P : value) :
  truthy state = false →
  _loadActionType seg ≠ _cleanActionType seg →
  q ≠ "__proto__" →
  ∃ n h',
    _getReducer seg h state (Action (_loadActionType seg) (Some q) P)
      = Ok (VRef n, h') ∧
    h !! n = None ∧
    h' !! n = Some {[q := P]}.
Proof.
  intros Hs Hc Hqp. rewrite (reducer_missing_state _ _ _ _ Hs).
  set (h1 := <[fresh (dom h) := ∅]> h).
  assert (obj_at h1 (fresh (dom h)) = ∅) as Ho by apply obj_at_insert_eq.
  rewrite reducer_load; try done; try by rewrite Ho.
  pose proof (fresh_loc_unused h1) as Hn.
  eexists _, _. split; [done|]. split.
  - destruct (h !! fresh (dom h1)) as [o|] eqn:Hoo; [|done].
    assert (h1 !! fresh (dom h1) = Some o) as Hc'
      by apply (lookup_weaken _ _ _ _ Hoo), insert_fresh_subseteq.
    congruence.
  - rewrite lookup_insert_eq, Ho. cbn. by rewrite insert_empty.
Qed.

Lemma load_on_missing_state_witness :
  ∃ n h',
    _getReducer Sample.seg Sample.h_loaded VNull
      (Action (_loadActionType Sample.seg) (Some "Q1") (VRef 2%positive))
      = Ok (VRef n, h') ∧
    Sample.h_loaded !! n = None ∧
    h' !! n = Some {["Q1" := VRef 2%positive]}.
Proof.
  apply (load_on_missing_state Sample.seg Sample.h_loaded VNull "Q1"
           (VRef 2%positive)); by vm_compute.
Defined.

(** ** Further properties of the change detector *)

(** X10. A load event does not disturb the subscribers of other queries:
    on a state object with no entry named [hasOwnProperty] or
    [__proto__], between the state and the state a load for [q] returns,
    [q] other than [__proto__], [_comparePiece] reports nothing for every
    query identity other than [q]. *)
Theorem load_not_reported_for_other_queries (seg : MapSegment) (h : heap)
    (l : loc) (o : obj) (q q' : string) (P : value) :
  _loadActionType seg ≠ _cleanActionType seg →
  h !! l = Some o →
  o !! "hasOwnProperty" = None →
  o !! "__proto__" = None →
  q ≠ "__proto__" →
  q' ≠ q →
  ∃ n h',
    _getReducer seg h (VRef l) (Action (_loadActionType seg) (Some q) P)
      = Ok (VRef n, h') ∧
    _comparePiece h' (VRef l) (VRef n) q' = Ok None.
Proof.
  intros Hc Hs Hh Hp Hqp Hne.
  pose proof (obj_at_Some _ _ _ Hs) as Ho.
  rewrite reducer_load; try done; try by rewrite Ho.
  eexists _, _. split; [done|]. cbn [a_queryId a_payload prop_key].
  change (default "undefined" (Some q)) with q.
  pose proof (fresh_loc_unused h) as Hn.
  unfold _comparePiece.
  destruct (_isStateEqual _ _); [done|].
  cbn. unfold obj_get.
  rewrite obj_at_insert_eq, obj_at_insert_ne by congruence.
  rewrite lookup_insert_ne by done.
  by rewrite (proj2 (strict_eq_true _ _) eq_refl).
Qed.

Lemma load_not_reported_for_other_queries_witness :
  ∃ n h',
    _getReducer Sample.seg Sample.h_loaded (VRef 1%positive)
      (Action (_loadActionType Sample.seg) (Some "Q2") (VStr "b"))
      = Ok (VRef n, h') ∧
    _comparePiece h' (VRef 1%positive) (VRef n) "Q1" = Ok None.
Proof.
  apply (load_not_reported_for_other_queries Sample.seg Sample.h_loaded
           1%positive {["Q1" := VRef 2%positive]} "Q2" "Q1" (VStr "b"));
    by vm_compute.
Defined.

(** What the state reads at a key is an object of the store [h] or no
    object of the store at all, never the object a later allocation
    makes. *)
Lemma obj_get_not_fresh (h : heap) (l : loc) (o : obj) (q : string) :
  h !! l = Some o →
  match o !! q with Some (VRef p) => is_Some (h !! p) | _ => True end →
  match o !! q with Some v => v | None => inherited q end ≠ VRef (fresh (dom h)).
Proof.
  intros Hs Hwf. pose proof (fresh_loc_unused h) as Hn.
  destruct (o !! q) as [v|].
  - destruct v as [| | | | |p|]; try done.
    intros [= ->]. destruct Hwf as [? ?]. congruence.
  - unfold inherited. destruct (String.eqb q "__proto__"); [done|].
    by destruct (is_object_method q).
Qed.

(** X11. A load made by [_createSyncLoadActionObject] is always reported
    to the subscribers of its query: the piece is a new object, so it is
    never [===] to what the state read there, and [_comparePiece] between
    the state and the state the reducer returns gives the one-element
    array with the new piece, also when payload and errors are those of
    the piece already there.  The state is a state object with no entry
    named [hasOwnProperty] or [__proto__], the query identity is not
    [__proto__], and the entry the state has at the query identity, when
    an object, is one of the store. *)
Theorem created_load_is_always_reported (seg : MapSegment) (now : Z) (h : heap)
    (l : loc) (o : obj) (q : string) (payload errors : value) :
  _loadActionType seg ≠ _cleanActionType seg →
  h !! l = Some o →
  o !! "hasOwnProperty" = None →
  o !! "__proto__" = None →
  q ≠ "__proto__" →
  match o !! q with Some (VRef p) => is_Some (h !! p) | _ => True end →
  ∃ a h1 n h2,
    _createSyncLoadActionObject seg now h q payload errors = (a, h1) ∧
    _getReducer seg h1 (VRef l) a = Ok (VRef n, h2) ∧
    _comparePiece h2 (VRef l) (VRef n) q = Ok (Some [a_payload a]).
Proof.
  intros Hc Hs Hh Hpr Hqp Hwf.
  pose proof (obj_get_not_fresh h l o q Hs Hwf) as Hold.
  unfold _createSyncLoadActionObject, alloc.
  set (p := fresh (dom h)) in *. set (piece := <["data" := payload]> _).
  set (h1 := <[p := piece]> h).
  assert (h1 !! l = Some o) as Hs1 by by apply lookup_insert_fresh_old.
  pose proof (obj_at_Some _ _ _ Hs1) as Ho1.
  pose proof (fresh_loc_unused h1) as Hn.
  eexists _, h1, _, _. split; [done|].
  rewrite reducer_load; try done; try by rewrite Ho1.
  split; [done|].
  cbn [a_queryId a_payload prop_key].
  change (default "undefined" (Some q)) with q.
  unfold _comparePiece, _isStateEqual.
  assert (fresh (dom h1) ≠ l) as Hnl by congruence.
  rewrite (proj2 (strict_eq_false (VRef l) (VRef (fresh (dom h1))))) by congruence.
  cbn. unfold obj_get.
  rewrite obj_at_insert_eq, obj_at_insert_ne by done.
  rewrite Ho1, lookup_insert_eq.
  by rewrite (proj2 (strict_eq_false _ _) Hold).
Qed.

Lemma created_load_is_always_reported_witness :
  ∃ a h1 n h2,
    _createSyncLoadActionObject Sample.seg 1000 Sample.h_loaded "Q1"
      (VStr "alice") VNull = (a, h1) ∧
    _getReducer Sample.seg h1 (VRef 1%positive) a = Ok (VRef n, h2) ∧
    _comparePiece h2 (VRef 1%positive) (VRef n) "Q1" = Ok (Some [a_payload a]).
Proof.
  apply (created_load_is_always_reported Sample.seg 1000 Sample.h_loaded
           1%positive {["Q1" := VRef 2%positive]} "Q1" (VStr "alice") VNull);
    [by vm_compute | by vm_compute | by vm_compute | by vm_compute
    | by vm_compute | vm_compute; by eexists].
Defined.

(** X12. A clean event is reported to the subscribers of every populated
    query, and for a query identity that names no member of
    [Object.prototype] what they are handed is [undefined]: when the
    state has an entry other than [undefined] at such a query identity,
    [_comparePiece] between the state and the state the clean returns
    gives the one-element array holding [undefined]. *)
Theorem clean_is_reported_as_undefined (seg : MapSegment) (h : heap) (l : loc)
    (o : obj) (q : string) (e : value) :
  h !! l = Some o →
  o !! q = Some e →
  e ≠ VUndef →
  inherited q = VUndef →
  ∃ n h',
    _getReducer seg h (VRef l) (_createSyncCleanAction seg) = Ok (VRef n, h') ∧
    _comparePiece h' (VRef l) (VRef n) q = Ok (Some [VUndef]).
Proof.
  intros Hs Hq He Hinh. rewrite reducer_clean; [|done].
  pose proof (fresh_loc_unused h) as Hn.
  eexists _, _. split; [done|].
  unfold _comparePiece, _isStateEqual.
  rewrite (proj2 (strict_eq_false (VRef l) (VRef (fresh (dom h))))) by congruence.
  cbn. unfold obj_get.
  rewrite obj_at_insert_eq, obj_at_insert_ne by congruence.
  rewrite (obj_at_Some _ _ _ Hs), Hq, lookup_empty, Hinh.
  by rewrite (proj2 (strict_eq_false e VUndef)).
Qed.

Lemma clean_is_reported_as_undefined_witness :
  ∃ n h',
    _getReducer Sample.seg Sample.h_loaded (VRef 1%positive)
      (_createSyncCleanAction Sample.seg) = Ok (VRef n, h') ∧
    _comparePiece h' (VRef 1%positive) (VRef n) "Q1" = Ok (Some [VUndef]).
Proof.
  apply (clean_is_reported_as_undefined Sample.seg Sample.h_loaded 1%positive
           {["Q1" := VRef 2%positive]} "Q1" (VRef 2%positive)); by vm_compute.
Defined.

(** X13. [_comparePiece] needs both states: with [undefined] or [null]
    for one of them and a state object for the other it throws a
    [TypeError], whichever side is missing; only when both are the same
    missing value does it return [null] without reading anything. *)
Theorem comparePiece_missing_state (h : heap) (l : loc) (q : string) :
  (∃ msg, _comparePiece h VUndef (VRef l) q = Throw (TypeError msg)) ∧
  (∃ msg, _comparePiece h VNull (VRef l) q = Throw (TypeError msg)) ∧
  (∃ msg, _comparePiece h (VRef l) VUndef q = Throw (TypeError msg)) ∧
  (∃ msg, _comparePiece h (VRef l) VNull q = Throw (TypeError msg)) ∧
  (∃ msg, _comparePiece h VUndef VNull q = Throw (TypeError msg)) ∧
  _comparePiece h VUndef VUndef q = Ok None ∧
  _comparePiece h VNull VNull q = Ok None.
Proof. repeat split; try (eexists; reflexivity); reflexivity. Qed.

(** X14. An init event for a loaded query is reported to no one: between
    the state and the state the reducer returns, [_comparePiece] gives
    [null] for every query identity, the one of the event included. *)
Theorem noop_init_is_not_reported (seg : MapSegment) (h : heap) (l p : loc)
    (o po : obj) (q q' : string) (payload : value) :
  _initActionType seg ≠ _cleanActionType seg →
  _initActionType seg ≠ _loadActionType seg →
  h !! l = Some o →
  o !! q = Some (VRef p) →
  h !! p = Some po →
  po !! "loaded" = Some (VBool true) →
  ∃ s' h',
    _getReducer seg h (VRef l) (Action (_initActionType seg) (Some q) payload)
      = Ok (s', h') ∧
    _comparePiece h' (VRef l) s' q' = Ok None.
Proof.
  intros Hc Hl Hs Hq Hp Hld.
  exists (VRef l), h. split.
  - apply (reducer_init_loaded seg h l _ (VRef p) (VBool true)); try done.
    + by apply (obj_get_own _ _ o).
    + cbn. by rewrite (obj_get_own _ _ po _ (VBool true)).
  - unfold _comparePiece, _isStateEqual.
    by rewrite (proj2 (strict_eq_true _ _) eq_refl).
Qed.

Lemma noop_init_is_not_reported_witness :
  ∃ s' h',
    _getReducer Sample.seg Sample.h_loaded (VRef 1%positive)
      (Action (_initActionType Sample.seg) (Some "Q1") VNull) = Ok (s', h') ∧
    _comparePiece h' (VRef 1%positive) s' "Q1" = Ok None.
Proof.
  apply (noop_init_is_not_reported Sample.seg Sample.h_loaded 1%positive
           2%positive {["Q1" := VRef 2%positive]} Sample.piece_loaded
           "Q1" "Q1" VNull); by vm_compute.
Defined.

(** ** The creators, the reducer and the piece readers together *)

(** X15. The piece of a load that reported errors does not survive an
    init: on a state object with no entry named [hasOwnProperty] or
    [__proto__], and for a query identity that is neither of these names,
    after [_createSyncLoadActionObject] with truthy errors and the
    reducer, then [_createSyncInitAction] for the same query and the
    reducer, the entry at the query identity is the init's new piece, with
    [data] and [errors] both [null] and not loaded; the errors of the load
    are no longer in the state. *)
Theorem failed_load_is_wiped_by_init (seg : MapSegment) (now1 now2 : Z)
    (h : heap) (l : loc) (o : obj) (q : string) (payload errors : value) :
  _loadActionType seg ≠ _cleanActionType seg →
  _initActionType seg ≠ _cleanActionType seg →
  _initActionType seg ≠ _loadActionType seg →
  h !! l = Some o →
  o !! "hasOwnProperty" = None →
  o !! "__proto__" = None →
  q ≠ "hasOwnProperty" →
  q ≠ "__proto__" →
  truthy errors = true →
  ∃ a1 h1 s1 h2 a2 h3 s2 h4,
    _createSyncLoadActionObject seg now1 h q payload errors = (a1, h1) ∧
    _getReducer seg h1 (VRef l) a1 = Ok (s1, h2) ∧
    _createSyncInitAction seg now2 h2 q = (a2, h3) ∧
    _getReducer seg h3 s1 a2 = Ok (s2, h4) ∧
    _getPieceObject h4 s2 q = Ok (a_payload a2) ∧
    a_payload a2 ≠ a_payload a1 ∧
    get_prop h4 (a_payload a2) "data" = Ok VNull ∧
    get_prop h4 (a_payload a2) "errors" = Ok VNull ∧
    _isLoaded h4 (a_payload a2) = Ok (VBool false).
Proof.
  intros Hlc Hic Hil Hs Hh Hpr Hqh Hqp Hte.
  unfold _createSyncLoadActionObject, _createSyncInitAction, alloc.
  rewrite Hte.
  set (p1 := fresh (dom h)). set (piece1 := <["data" := payload]> _).
  set (h1 := <[p1 := piece1]> h).
  assert (h1 !! l = Some o) as Hs1 by by apply lookup_insert_fresh_old.
  pose proof (obj_at_Some _ _ _ Hs1) as Ho1.
  assert (h1 !! p1 = Some piece1) as Hp1 by apply lookup_insert_eq.
  set (n1 := fresh (dom h1)). set (o1 := <[q := VRef p1]> o).
  set (h2 := <[n1 := o1]> h1).
  assert (h2 !! n1 = Some o1) as Hn1 by apply lookup_insert_eq.
  assert (h2 !! p1 = Some piece1) as Hp1' by by apply lookup_insert_fresh_old.
  set (p2 := fresh (dom h2)). set (piece2 := <["data" := VNull]> _).
  set (h3 := <[p2 := piece2]> h2).
  assert (h3 !! n1 = Some o1) as Hn1' by by apply lookup_insert_fresh_old.
  pose proof (obj_at_Some _ _ _ Hn1') as Hon1.
  assert (h3 !! p1 = Some piece1) as Hp1'' by by apply lookup_insert_fresh_old.
  assert (h3 !! p2 = Some piece2) as Hp2 by apply lookup_insert_eq.
  set (n2 := fresh (dom h3)). set (o2 := <[q := VRef p2]> o1).
  set (h4 := <[n2 := o2]> h3).
  assert (h4 !! p2 = Some piece2) as Hp2' by by apply lookup_insert_fresh_old.
  assert (h4 !! n2 = Some o2) as Hn2 by apply lookup_insert_eq.
  assert (p2 ≠ p1) as Hne.
  { intros Heq. pose proof (fresh_loc_unused h2) as Hf. fold p2 in Hf. congruence. }
  exists (Action (_loadActionType seg) (Some q) (VRef p1)), h1, (VRef n1), h2,
    (Action (_initActionType seg) (Some q) (VRef p2)), h3, (VRef n2), h4.
  split; [done|]. split.
  { rewrite reducer_load; try done; try by rewrite Ho1. }
  split; [done|]. split.
  { rewrite reducer_init_uninitialized; try done;
      try (rewrite Hon1; try done; unfold o1; by rewrite lookup_insert_ne).
    right.
    change (prop_key (a_queryId (Action (_initActionType seg) (Some q) (VRef p2))))
      with q.
    rewrite (obj_get_own _ _ _ _ (VRef p1) Hn1') by apply lookup_insert_eq.
    exists (VBool false). cbn.
    by rewrite (obj_get_own _ _ _ _ (VBool false) Hp1''). }
  cbn [a_payload].
  split. { unfold _getPieceObject. cbn.
           by rewrite (obj_get_own _ _ _ _ (VRef p2) Hn2) by apply lookup_insert_eq. }
  split; [congruence|].
  unfold _isLoaded. cbn.
  by rewrite (obj_get_own _ _ _ "data" VNull Hp2'),
    (obj_get_own _ _ _ "errors" VNull Hp2'),
    (obj_get_own _ _ _ "loaded" (VBool false) Hp2').
Qed.

Lemma failed_load_is_wiped_by_init_witness :
  ∃ a1 h1 s1 h2 a2 h3 s2 h4,
    _createSyncLoadActionObject Sample.seg 1000 Sample.h_errors "Q1" VNull
      (VRef 2%positive) = (a1, h1) ∧
    _getReducer Sample.seg h1 (VRef 1%positive) a1 = Ok (s1, h2) ∧
    _createSyncInitAction Sample.seg 1001 h2 "Q1" = (a2, h3) ∧
    _getReducer Sample.seg h3 s1 a2 = Ok (s2, h4) ∧
    _getPieceObject h4 s2 "Q1" = Ok (a_payload a2) ∧
    a_payload a2 ≠ a_payload a1 ∧
    get_prop h4 (a_payload a2) "data" = Ok VNull ∧
    get_prop h4 (a_payload a2) "errors" = Ok VNull ∧
    _isLoaded h4 (a_payload a2) = Ok (VBool false).
Proof.
  apply (failed_load_is_wiped_by_init Sample.seg 1000 1001 Sample.h_errors
           1%positive ∅ "Q1" VNull (VRef 2%positive)); by vm_compute.
Defined.

(** X16. [_createNewStateObj] copies a state object that has no entry
    named [hasOwnProperty] or [__proto__] exactly: it returns a new
    object, other than the state, with the own entries of the state and
    no other, and leaves every object of the store, the state among them,
    as it was. *)
Theorem createNewStateObj_copies (h : heap) (l : loc) (o : obj) :
  h !! l = Some o →
  o !! "hasOwnProperty" = None →
  o !! "__proto__" = None →
  ∃ n h',
    _createNewStateObj h (VRef l) = Ok (n, h') ∧
    n ≠ l ∧
    h !! n = None ∧
    h' !! n = Some o ∧
    ∀ l' o', h !! l' = Some o' → h' !! l' = Some o'.
Proof.
  intros Hs Hh Hp. pose proof (obj_at_Some _ _ _ Hs) as Ho.
  rewrite createNewStateObj_eq by by rewrite Ho.
  pose proof (fresh_loc_unused h) as Hn.
  eexists _, _. split; [done|]. split; [congruence|]. split; [done|].
  split; [by rewrite lookup_insert_eq, Ho|].
  intros l' o' Hl'. by apply lookup_insert_fresh_old.
Qed.

Lemma createNewStateObj_copies_witness :
  ∃ n h',
    _createNewStateObj Sample.h_loaded (VRef 1%positive) = Ok (n, h') ∧
    n ≠ 1%positive ∧
    Sample.h_loaded !! n = None ∧
    h' !! n = Some {["Q1" := VRef 2%positive]} ∧
    ∀ l' o', Sample.h_loaded !! l' = Some o' → h' !! l' = Some o'.
Proof.
  apply (createNewStateObj_copies Sample.h_loaded 1%positive
           {["Q1" := VRef 2%positive]}); by vm_compute.
Defined.

(** X17. Asking whether a query is loaded before it has an entry throws:
    for a query identity the state has no entry for, and that names no
    member of [Object.prototype], [_getPieceObject] returns [undefined],
    and [_isLoaded] of that throws a [TypeError]. *)
Theorem isLoaded_of_missing_piece_throws (h : heap) (l : loc) (o : obj)
    (q : string) :
  h !! l = Some o →
  o !! q = None →
  inherited q = VUndef →
  _getPieceObject h (VRef l) q = Ok VUndef ∧
  ∃ msg, (piece ← _getPieceObject h (VRef l) q; _isLoaded h piece)
           = Throw (TypeError msg).
Proof.
  intros Hs Hq Hinh. unfold _getPieceObject. cbn.
  rewrite (obj_get_inherited _ _ _ _ Hs Hq), Hinh. cbn. split; [done|]. by eexists.
Qed.

Lemma isLoaded_of_missing_piece_throws_witness :
  _getPieceObject Sample.h_loaded (VRef 1%positive) "Q2" = Ok VUndef ∧
  ∃ msg, (piece ← _getPieceObject Sample.h_loaded (VRef 1%positive) "Q2";
          _isLoaded Sample.h_loaded piece) = Throw (TypeError msg).
Proof.
  apply (isLoaded_of_missing_piece_throws Sample.h_loaded 1%positive
           {["Q1" := VRef 2%positive]} "Q2"); by vm_compute.
Defined.

(** A state the loop runs through stays one when a piece is added to the
    store. *)
Lemma copies_cleanly_alloc_piece (h : heap) (state : value) (piece : obj) :
  copies_cleanly h state →
  piece !! "hasOwnProperty" = None →
  piece !! "__proto__" = None →
  copies_cleanly (<[fresh (dom h) := piece]> h) state.
Proof.
  intros Hcc Hh Hp. destruct state as [| | | | |l|]; try done.
  cbn in *. destruct (decide (fresh (dom h) = l)) as [<-|Hne].
  - by rewrite obj_at_insert_eq.
  - by rewrite obj_at_insert_ne.
Qed.

(** X18. A load without errors, from creator to reader: on a state that
    is missing or is a state object with no entry named [hasOwnProperty]
    or [__proto__], and for a query identity other than [__proto__],
    after [_createSyncLoadActionObject] with falsy errors and the reducer,
    [_getPieceObject] at the query identity returns the new piece,
    [_isLoaded] of it is [true], and the piece holds the payload, the
    errors as given and the clock reading. *)
Theorem successful_load_is_loaded (seg : MapSegment) (now : Z) (h : heap)
    (state : value) (q : string) (payload errors : value) :
  _loadActionType seg ≠ _cleanActionType seg →
  copies_cleanly h state →
  q ≠ "__proto__" →
  truthy errors = false →
  ∃ a h1 s' h2 piece,
    _createSyncLoadActionObject seg now h q payload errors = (a, h1) ∧
    _getReducer seg h1 state a = Ok (s', h2) ∧
    _getPieceObject h2 s' q = Ok piece ∧
    piece = a_payload a ∧
    _isLoaded h2 piece = Ok (VBool true) ∧
    get_prop h2 piece "data" = Ok payload ∧
    get_prop h2 piece "errors" = Ok errors ∧
    get_prop h2 piece "updated" = Ok (VNum now).
Proof.
  intros Hc Hcc Hqp Hte.
  unfold _createSyncLoadActionObject, alloc. rewrite Hte.
  set (p := fresh (dom h)). set (po := <["data" := payload]> _).
  set (h1 := <[p := po]> h).
  assert (h1 !! p = Some po) as Hp by apply lookup_insert_eq.
  assert (copies_cleanly h1 state) as Hcc1
    by by apply copies_cleanly_alloc_piece.
  destruct (load_outcome seg h1 state (Action (_loadActionType seg) (Some q) (VRef p))
              eq_refl Hc Hcc1 Hqp) as (hx & ox & Hsub & _ & _ & Hred).
  change (prop_key (a_queryId (Action (_loadActionType seg) (Some q) (VRef p))))
    with q in Hred.
  cbn [a_payload] in Hred.
  assert (hx !! p = Some po) as Hpx by apply (lookup_weaken _ _ _ _ Hp Hsub).
  set (h2 := <[fresh (dom hx) := <[q := VRef p]> ox]> hx) in *.
  assert (h2 !! fresh (dom hx) = Some (<[q := VRef p]> ox)) as Hn2
    by apply lookup_insert_eq.
  assert (h2 !! p = Some po) as Hp2 by by apply lookup_insert_fresh_old.
  eexists _, h1, _, _, (VRef p). split; [done|]. split; [exact Hred|].
  split. { unfold _getPieceObject. cbn.
           by rewrite (obj_get_own _ _ _ _ (VRef p) Hn2) by apply lookup_insert_eq. }
  split; [done|].
  unfold _isLoaded. cbn.
  by rewrite (obj_get_own _ _ _ "loaded" (VBool true) Hp2),
    (obj_get_own _ _ _ "data" payload Hp2), (obj_get_own _ _ _ "errors" errors Hp2),
    (obj_get_own _ _ _ "updated" (VNum now) Hp2).
Qed.

Lemma successful_load_is_loaded_witness :
  ∃ a h1 s' h2 piece,
    _createSyncLoadActionObject Sample.seg 1000 Sample.h_empty "Q1"
      (VStr "alice") VUndef = (a, h1) ∧
    _getReducer Sample.seg h1 VUndef a = Ok (s', h2) ∧
    _getPieceObject h2 s' "Q1" = Ok piece ∧
    piece = a_payload a ∧
    _isLoaded h2 piece = Ok (VBool true) ∧
    get_prop h2 piece "data" = Ok (VStr "alice") ∧
    get_prop h2 piece "errors" = Ok VUndef ∧
    get_prop h2 piece "updated" = Ok (VNum 1000).
Proof.
  apply (successful_load_is_loaded Sample.seg 1000 Sample.h_empty VUndef "Q1"
           (VStr "alice") VUndef); by vm_compute.
Defined.

(** X19. An init from [_createSyncInitAction] for a query the state has
    no entry for leaves a placeholder and is reported: on a state object
    with no entry named [hasOwnProperty] or [__proto__], and for a query
    identity other than [__proto__], the state returned has the init's
    new piece at the query identity, [_isLoaded] of it is [false], its
    [data] and [errors] are [null], and [_comparePiece] between the two
    states gives the one-element array with that piece. *)
Theorem created_init_leaves_placeholder (seg : MapSegment) (now : Z) (h : heap)
    (l : loc) (o : obj) (q : string) :
  _initActionType seg ≠ _cleanActionType seg →
  _initActionType seg ≠ _loadActionType seg →
  h !! l = Some o →
  o !! "hasOwnProperty" = None →
  o !! "__proto__" = None →
  q ≠ "__proto__" →
  o !! q = None →
  ∃ a h1 n h2,
    _createSyncInitAction seg now h q = (a, h1) ∧
    _getReducer seg h1 (VRef l) a = Ok (VRef n, h2) ∧
    _getPieceObject h2 (VRef n) q = Ok (a_payload a) ∧
    _isLoaded h2 (a_payload a) = Ok (VBool false) ∧
    get_prop h2 (a_payload a) "data" = Ok VNull ∧
    get_prop h2 (a_payload a) "errors" = Ok VNull ∧
    _comparePiece h2 (VRef l) (VRef n) q = Ok (Some [a_payload a]).
Proof.
  intros Hc Hl Hs Hh Hpr Hqp Hq.
  unfold _createSyncInitAction, alloc.
  set (p := fresh (dom h)). set (po := <["data" := VNull]> _).
  set (h1 := <[p := po]> h).
  assert (h1 !! l = Some o) as Hs1 by by apply lookup_insert_fresh_old.
  pose proof (obj_at_Some _ _ _ Hs1) as Ho1.
  assert (h1 !! p = Some po) as Hp by apply lookup_insert_eq.
  set (n := fresh (dom h1)). set (h2 := <[n := <[q := VRef p]> o]> h1).
  assert (h2 !! p = Some po) as Hp2 by by apply lookup_insert_fresh_old.
  assert (h2 !! l = Some o) as Hs2 by by apply lookup_insert_fresh_old.
  assert (h2 !! n = Some (<[q := VRef p]> o)) as Hn2 by apply lookup_insert_eq.
  assert (n ≠ l) as Hnl.
  { intros Heq. pose proof (fresh_loc_unused h1) as Hf. fold n in Hf. congruence. }
  exists (Action (_initActionType seg) (Some q) (VRef p)), h1, n, h2.
  split; [done|]. split.
  { rewrite reducer_init_uninitialized; try done; try by rewrite Ho1.
    change (prop_key (a_queryId (Action (_initActionType seg) (Some q) (VRef p))))
      with q.
    rewrite (obj_get_inherited _ _ _ _ Hs1 Hq). apply inherited_uninitialized. }
  cbn [a_payload].
  assert (obj_get h2 n q = VRef p) as Hget
    by (apply (obj_get_own _ _ _ _ _ Hn2); apply lookup_insert_eq).
  split. { unfold _getPieceObject. cbn. by rewrite Hget. }
  unfold _isLoaded. cbn.
  rewrite (obj_get_own _ _ _ "data" VNull Hp2), (obj_get_own _ _ _ "errors" VNull Hp2),
    (obj_get_own _ _ _ "loaded" (VBool false) Hp2) by done.
  repeat (split; [done|]).
  unfold _comparePiece, _isStateEqual.
  rewrite (proj2 (strict_eq_false (VRef l) (VRef n))) by congruence.
  cbn. rewrite Hget, (obj_get_inherited _ _ _ _ Hs2 Hq).
  rewrite (proj2 (strict_eq_false (inherited q) (VRef p))); [done|].
  unfold inherited. destruct (String.eqb q "__proto__"); [done|].
  by destruct (is_object_method q).
Qed.

Lemma created_init_leaves_placeholder_witness :
  ∃ a h1 n h2,
    _createSyncInitAction Sample.seg 1000 Sample.h_loaded "Q2" = (a, h1) ∧
    _getReducer Sample.seg h1 (VRef 1%positive) a = Ok (VRef n, h2) ∧
    _getPieceObject h2 (VRef n) "Q2" = Ok (a_payload a) ∧
    _isLoaded h2 (a_payload a) = Ok (VBool false) ∧
    get_prop h2 (a_payload a) "data" = Ok VNull ∧
    get_prop h2 (a_payload a) "errors" = Ok VNull ∧
    _comparePiece h2 (VRef 1%positive) (VRef n) "Q2" = Ok (Some [a_payload a]).
Proof.
  apply (created_init_leaves_placeholder Sample.seg 1000 Sample.h_loaded
           1%positive {["Q1" := VRef 2%positive]} "Q2"); by vm_compute.
Defined.

(** X20. An init is not idempotent while the query is not loaded: when
    the entry at the query identity is a piece that is not loaded, in a
    state object with no entry named [hasOwnProperty] or [__proto__], an
    init from [_createSyncInitAction] for the same query replaces it by
    its own new piece in a new state, and [_comparePiece] reports that
    piece to the subscribers again. *)
Theorem repeated_init_is_reported_again (seg : MapSegment) (now : Z) (h : heap)
    (l p : loc) (o po : obj) (q : string) :
  _initActionType seg ≠ _cleanActionType seg →
  _initActionType seg ≠ _loadActionType seg →
  h !! l = Some o →
  o !! "hasOwnProperty" = None →
  o !! "__proto__" = None →
  o !! q = Some (VRef p) →
  h !! p = Some po →
  truthy (default VUndef (po !! "loaded")) = false →
  ∃ a h1 n h2,
    _createSyncInitAction seg now h q = (a, h1) ∧
    _getReducer seg h1 (VRef l) a = Ok (VRef n, h2) ∧
    _isStateEqual (VRef n) (VRef l) = false ∧
    a_payload a ≠ VRef p ∧
    _comparePiece h2 (VRef l) (VRef n) q = Ok (Some [a_payload a]).
Proof.
  intros Hc Hl Hs Hh Hpr Hq Hp Hld.
  assert (q ≠ "__proto__") as Hqp by congruence.
  unfold _createSyncInitAction, alloc.
  set (p2 := fresh (dom h)). set (po2 := <["data" := VNull]> _).
  set (h1 := <[p2 := po2]> h).
  assert (p2 ≠ p) as Hpp.
  { intros Heq. pose proof (fresh_loc_unused h) as Hf. fold p2 in Hf. congruence. }
  assert (h1 !! l = Some o) as Hs1 by by apply lookup_insert_fresh_old.
  pose proof (obj_at_Some _ _ _ Hs1) as Ho1.
  assert (h1 !! p = Some po) as Hp1 by by apply lookup_insert_fresh_old.
  set (n := fresh (dom h1)). set (h2 := <[n := <[q := VRef p2]> o]> h1).
  assert (h2 !! l = Some o) as Hs2 by by apply lookup_insert_fresh_old.
  assert (h2 !! n = Some (<[q := VRef p2]> o)) as Hn2 by apply lookup_insert_eq.
  assert (n ≠ l) as Hnl.
  { intros Heq. pose proof (fresh_loc_unused h1) as Hf. fold n in Hf. congruence. }
  exists (Action (_initActionType seg) (Some q) (VRef p2)), h1, n, h2.
  split; [done|]. split.
  { rewrite reducer_init_uninitialized; try done; try by rewrite Ho1.
    right.
    change (prop_key (a_queryId (Action (_initActionType seg) (Some q) (VRef p2))))
      with q.
    rewrite (obj_get_own _ _ _ _ _ Hs1 Hq). cbn. unfold obj_get.
    rewrite (obj_at_Some _ _ _ Hp1).
    destruct (po !! "loaded") as [ld|]; [by exists ld|by exists VUndef]. }
  cbn [a_payload].
  split. { apply strict_eq_false. congruence. }
  split; [congruence|].
  unfold _comparePiece, _isStateEqual.
  rewrite (proj2 (strict_eq_false (VRef l) (VRef n))) by congruence.
  cbn.
  rewrite (obj_get_own _ _ _ _ (VRef p2) Hn2) by apply lookup_insert_eq.
  rewrite (obj_get_own _ _ _ _ _ Hs2 Hq).
  by rewrite (proj2 (strict_eq_false (VRef p) (VRef p2))) by congruence.
Qed.

Lemma repeated_init_is_reported_again_witness :
  ∃ a h1 n h2,
    _createSyncInitAction Sample.seg 1001 Sample.h_unloaded "Q1" = (a, h1) ∧
    _getReducer Sample.seg h1 (VRef 1%positive) a = Ok (VRef n, h2) ∧
    _isStateEqual (VRef n) (VRef 1%positive) = false ∧
    a_payload a ≠ VRef 2%positive ∧
    _comparePiece h2 (VRef 1%positive) (VRef n) "Q1" = Ok (Some [a_payload a]).
Proof.
  apply (repeated_init_is_reported_again Sample.seg 1001 Sample.h_unloaded
           1%positive 2%positive {["Q1" := VRef 2%positive]}
           Sample.piece_unloaded "Q1"); by vm_compute.
Defined.

(** ** The keys a plain object does not take as a map *)

(** X21. Where the copy runs through, a load event always overwrites: on
    a state object with no entry named [hasOwnProperty] or [__proto__],
    every load event with a query identity [q] other than [__proto__] and
    payload [P] returns a new object, not the state it was given, whose
    entry at [q] is [P] and whose entry at every other key is the very
    value the state has there; the state itself keeps its entries. *)
Theorem load_returns_new_mapping (seg : MapSegment) (h : heap) (l : loc)
    (o : obj) (q : string) (P : value) :
  _loadActionType seg ≠ _cleanActionType seg →
  h !! l = Some o →
  o !! "hasOwnProperty" = None →
  o !! "__proto__" = None →
  q ≠ "__proto__" →
  ∃ n h' o',
    _getReducer seg h (VRef l) (Action (_loadActionType seg) (Some q) P)
      = Ok (VRef n, h') ∧
    n ≠ l ∧
    h !! n = None ∧
    h' !! n = Some o' ∧
    o' !! q = Some P ∧
    (∀ k, k ≠ q → o' !! k = o !! k) ∧
    h' !! l = Some o.
Proof.
  intros Hc Hs Hh Hp Hqp.
  pose proof (obj_at_Some _ _ _ Hs) as Ho.
  exists (fresh (dom h)), (<[fresh (dom h) := <[q := P]> o]> h), (<[q := P]> o).
  pose proof (fresh_loc_unused h) as Hn.
  assert (fresh (dom h) ≠ l) as Hne by congruence.
  split. { rewrite reducer_load; try done; try by rewrite Ho. }
  split; [done|]. split; [done|].
  split; [apply lookup_insert_eq|].
  split; [apply lookup_insert_eq|].
  split. { intros k Hk. by rewrite lookup_insert_ne. }
  by rewrite lookup_insert_ne.
Qed.

Lemma load_returns_new_mapping_witness :
  ∃ n h' o',
    _getReducer Sample.seg Sample.h_loaded (VRef 1%positive)
      (Action (_loadActionType Sample.seg) (Some "Q2") (VRef 2%positive))
      = Ok (VRef n, h') ∧
    n ≠ 1%positive ∧
    Sample.h_loaded !! n = None ∧
    h' !! n = Some o' ∧
    o' !! "Q2" = Some (VRef 2%positive) ∧
    (∀ k, k ≠ "Q2" → o' !! k = ({["Q1" := VRef 2%positive]} : obj) !! k) ∧
    h' !! 1%positive = Some {["Q1" := VRef 2%positive]}.
Proof.
  apply (load_returns_new_mapping Sample.seg Sample.h_loaded 1%positive
           {["Q1" := VRef 2%positive]} "Q2" (VRef 2%positive)); by vm_compute.
Defined.

(** X22. A load for the query identity [__proto__] with a primitive
    payload stores nothing: on a state object with no entry named
    [hasOwnProperty] or [__proto__], the reducer returns a new object
    with the entries of the state and no other, and what that state reads
    at [__proto__] is [Object.prototype], not the payload. *)
Theorem load_at_proto_key_is_dropped (seg : MapSegment) (h : heap) (l : loc)
    (o : obj) (P : value) :
  _loadActionType seg ≠ _cleanActionType seg →
  h !! l = Some o →
  o !! "hasOwnProperty" = None →
  o !! "__proto__" = None →
  prototype_like P = false →
  ∃ n h',
    _getReducer seg h (VRef l) (Action (_loadActionType seg) (Some "__proto__") P)
      = Ok (VRef n, h') ∧
    h' !! n = Some o ∧
    _getPieceObject h' (VRef n) "__proto__" = Ok (VNative ObjectPrototype).
Proof.
  intros Hc Hs Hh Hp HP.
  pose proof (obj_at_Some _ _ _ Hs) as Ho.
  unfold _getReducer. cbn [truthy negb a_type].
  rewrite (proj2 (String.eqb_neq _ _) Hc), String.eqb_refl.
  rewrite createNewStateObj_eq by by rewrite Ho.
  cbn [mbind result_bind a_queryId a_payload prop_key]. rewrite Ho.
  change (prop_key (Some "__proto__")) with "__proto__".
  assert (set_prop (<[fresh (dom h) := o]> h) (fresh (dom h)) "__proto__" P
          = Ok (<[fresh (dom h) := o]> h)) as ->.
  { unfold set_prop. rewrite obj_at_insert_eq, Hp. cbn.
    by destruct P as [| | | | | |[|m]]. }
  cbn. eexists _, _. split; [done|]. split; [apply lookup_insert_eq|].
  unfold _getPieceObject. cbn. unfold obj_get.
  by rewrite obj_at_insert_eq, Hp.
Qed.

Lemma load_at_proto_key_is_dropped_witness :
  ∃ n h',
    _getReducer Sample.seg Sample.h_loaded (VRef 1%positive)
      (Action (_loadActionType Sample.seg) (Some "__proto__") (VNum 7))
      = Ok (VRef n, h') ∧
    h' !! n = Some {["Q1" := VRef 2%positive]} ∧
    _getPieceObject h' (VRef n) "__proto__" = Ok (VNative ObjectPrototype).
Proof.
  apply (load_at_proto_key_is_dropped Sample.seg Sample.h_loaded 1%positive
           {["Q1" := VRef 2%positive]} (VNum 7)); by vm_compute.
Defined.

(** X23. One load is enough to reach a state no load can copy: on a
    state object with no entry named [hasOwnProperty] or [__proto__], a
    load for the query identity [hasOwnProperty] with a payload that is
    not a function returns a state holding that payload, and every load
    on the state returned, for any query and payload, throws a
    [TypeError]. *)
Theorem load_of_hasOwnProperty_breaks_next_load (seg : MapSegment) (h : heap)
    (l : loc) (o : obj) (P : value) (q2 : string) (P2 : value) :
  _loadActionType seg ≠ _cleanActionType seg →
  h !! l = Some o →
  o !! "hasOwnProperty" = None →
  o !! "__proto__" = None →
  callable P = false →
  ∃ n h1 e h2,
    _getReducer seg h (VRef l)
      (Action (_loadActionType seg) (Some "hasOwnProperty") P) = Ok (VRef n, h1) ∧
    _getPieceObject h1 (VRef n) "hasOwnProperty" = Ok P ∧
    _getReducer seg h1 (VRef n) (Action (_loadActionType seg) (Some q2) P2)
      = Throw (TypeError e, h2).
Proof.
  intros Hc Hs Hh Hp HP.
  pose proof (obj_at_Some _ _ _ Hs) as Ho.
  rewrite reducer_load; try done; try by rewrite Ho.
  cbn [a_queryId a_payload prop_key]. rewrite Ho.
  change (default "undefined" (Some "hasOwnProperty")) with "hasOwnProperty".
  set (n := fresh (dom h)). set (o1 := <["hasOwnProperty" := P]> o).
  set (h1 := <[n := o1]> h).
  assert (h1 !! n = Some o1) as Hn1 by apply lookup_insert_eq.
  eexists n, h1, _, _. split; [done|]. split.
  { unfold _getPieceObject. cbn.
    by rewrite (obj_get_own _ _ _ _ P Hn1) by apply lookup_insert_eq. }
  unfold _getReducer. cbn [truthy negb a_type].
  rewrite (proj2 (String.eqb_neq _ _) Hc), String.eqb_refl.
  rewrite (createNewStateObj_shadowed h1 n o1 P); [done|done| |done].
  apply lookup_insert_eq.
Qed.

Lemma load_of_hasOwnProperty_breaks_next_load_witness :
  ∃ n h1 e h2,
    _getReducer Sample.seg Sample.h_empty (VRef 1%positive)
      (Action (_loadActionType Sample.seg) (Some "hasOwnProperty") (VNum 1))
      = Ok (VRef n, h1) ∧
    _getPieceObject h1 (VRef n) "hasOwnProperty" = Ok (VNum 1) ∧
    _getReducer Sample.seg h1 (VRef n)
      (Action (_loadActionType Sample.seg) (Some "Q1") (VStr "alice"))
      = Throw (TypeError e, h2).
Proof.
  apply (load_of_hasOwnProperty_breaks_next_load Sample.seg Sample.h_empty
           1%positive ∅ (VNum 1) "Q1" (VStr "alice")); by vm_compute.
Defined.
